(** * Fancy CSV Dashboard (src/app.py): the callbacks and their properties

    The application is a Dash page with four callbacks:
    [store_csv], [populate_numeric_dropdowns], [update_kpis] and
    [update_charts].  This file embeds them as Rocq functions, together
    with the part of Dash that decides which callback runs on which event,
    and proves properties of the data pipeline.

    Numbers.  A cell of a float64 column is a binary64 float (Rocq's
    primitive floats, NaN for a missing cell); a cell of an int64 column
    is an integer, converted to binary64 where pandas does so.

    Labels.  A column label is whatever [pd.read_json] makes of a header
    field: a text, an integer (the field [0] becomes the integer 0), or
    another Python object.  The model takes the labels with their Python
    equality, truth value and [str()] as a parameter ([Labels]).

    Library calls.  What pandas, base64 and plotly express compute is not
    code of the application: the calls are parameters ([Library]), and
    the callbacks are modelled over every implementation of them.  A call
    that raises makes the callback raise, as in Python. *)

From Stdlib Require Import List String Ascii ZArith QArith Qabs Bool Lia.
From Stdlib Require Import Permutation DecimalString.
From Stdlib Require Import PrimFloat SpecFloat FloatOps.
Import ListNotations.
Open Scope string_scope.

(** ** Python values *)

(** Column labels: a type with Python's [==] (which the model takes to
    decide equality), truth value ([bool(l)]: false for the integer 0 and
    for the empty text), [str(l)], and the label that is a given text. *)
Class Labels : Type := {
  label : Type;
  label_eqb : label -> label -> bool;
  label_eqb_eq : forall a b, label_eqb a b = true <-> a = b;
  label_truthy : label -> bool;
  label_str : label -> string;
  label_of_string : string -> label
}.

(** The binary64 float nearest to an integer, ties to even: the cast of an
    int64 cell to float64. *)
Definition float_of_Z (z : Z) : float :=
  SF2Prim (binary_normalize prec emax z 0 false).

Definition float_of_nat (n : nat) : float := float_of_Z (Z.of_nat n).

(** The result of running Python code that may raise: [Raise e] carries
    the text of the exception. *)
Inductive outcome (A : Type) : Type :=
| Return (a : A)
| Raise (e : string).
Arguments Return {A} a.
Arguments Raise {A} e.

Definition obind {A B} (m : outcome A) (k : A -> outcome B) : outcome B :=
  match m with
  | Return a => k a
  | Raise e => Raise e
  end.

(** A pandas column: its data with the dtype it is stored under.  Only
    int64 and float64 columns are selected by
    [select_dtypes(include='number')]. *)
Inductive Series : Type :=
| Integer (values : list Z)
| Numeric (values : list float)
| Boolean (values : list bool)
| Object (values : list (option string)).

(** The non-missing cells of a float column ([skipna=True]). *)
Definition valid (xs : list float) : list float :=
  filter (fun x => negb (PrimFloat.is_nan x)) xs.

Section Frames.
Context {Lb : Labels}.

Record Column : Type := { name : label; data : Series }.

(** A DataFrame: the length of its index (the row count) and its columns
    in order. *)
Record DataFrame : Type := { index_len : nat; columns : list Column }.

(** ** pandas operations used by the callbacks *)

Definition is_number (c : Column) : bool :=
  match data c with
  | Integer _ => true
  | Numeric _ => true
  | _ => false
  end.

(** [df.select_dtypes(include='number').columns]: the labels of the numeric
    columns, in frame order. *)
Definition numeric_columns (df : DataFrame) : list label :=
  map name (filter is_number (columns df)).

(** [df.empty]: some axis has length 0. *)
Definition df_empty (df : DataFrame) : bool :=
  (index_len df =? 0)%nat || (List.length (columns df) =? 0)%nat.

Definition has_label (l : label) (c : Column) : bool := label_eqb (name c) l.

(** [df[label]]: the column with that label.  No match is a KeyError; with
    a repeated label pandas returns a DataFrame, on which the callers below
    raise further on (a frame's mean is a Series, which [:.2f] cannot
    format). *)
Definition getitem (df : DataFrame) (l : label) : outcome Column :=
  match filter (has_label l) (columns df) with
  | [c] => Return c
  | [] => Raise "KeyError"
  | _ => Raise "TypeError"
  end.

(** [df[labels]]: the frame of, for each label in turn, the columns that
    carry it. *)
Definition getitems (df : DataFrame) (ls : list label) : DataFrame :=
  {| index_len := index_len df;
     columns := flat_map (fun l => filter (has_label l) (columns df)) ls |}.

(** [df.columns = labels]: the columns renamed in order; a ValueError when
    the lengths differ. *)
Definition set_columns (df : DataFrame) (ls : list label) : outcome DataFrame :=
  if (List.length (columns df) =? List.length ls)%nat then
    Return {| index_len := index_len df;
              columns := map (fun cl => {| name := snd cl; data := data (fst cl) |})
                             (combine (columns df) ls) |}
  else Raise "ValueError".

(** The cells of a numeric column as the floats [mean()] works on. *)
Definition numeric_values (c : Column) : list float :=
  match data c with
  | Numeric xs => xs
  | Integer zs => map float_of_Z zs
  | _ => []
  end.

End Frames.

(** ** The mean of a column in binary64

    [Series.mean()] adds the non-missing cells (a missing cell counts as
    0) and divides by their number.  In which order numpy adds is not
    fixed by pandas; [float_sum xs s] says that [s] is the result of
    adding the floats [xs] with binary64 additions in some order. *)
Inductive float_sum : list float -> float -> Prop :=
| float_sum_one x : float_sum [x] x
| float_sum_add xs ys a b :
    float_sum xs a -> float_sum ys b -> float_sum (xs ++ ys)%list (a + b)%float
| float_sum_perm xs ys s :
    Permutation xs ys -> float_sum xs s -> float_sum ys s.

Definition is_zero (x : float) : Prop := x = 0%float \/ x = (-0)%float.

(** [is_mean cells m]: [m] is NaN when no cell holds a value, and else a
    binary64 sum of the values (and of zeros) divided by their number. *)
Definition is_mean (cells : list float) (m : float) : Prop :=
  match valid cells with
  | [] => m = nan
  | v =>
      exists zeros s,
        Forall is_zero zeros /\
        float_sum (v ++ zeros)%list s /\
        m = (s / float_of_nat (List.length v))%float
  end.

(** ** Formatting: [f"{x:.2f}"] *)

(** Rounding to an integer, ties to even, as Python formats the exact
    value of a float. *)
Definition round_half_even (q : Q) : Z :=
  let n := Qnum q in
  let d := Zpos (Qden q) in
  let f := (n / d)%Z in
  match (2 * (n mod d) ?= d)%Z with
  | Lt => f
  | Gt => (f + 1)%Z
  | Eq => if Z.even f then f else (f + 1)%Z
  end.

Definition decimal (z : Z) : string := NilZero.string_of_uint (N.to_uint (Z.to_N z)).

Definition two_digits (z : Z) : string :=
  decimal (z / 10) ++ decimal (z mod 10).

(** The value [m * 2^e] of a finite float with mantissa [m] and exponent
    [e], without its sign. *)
Definition float_magnitude (m : positive) (e : Z) : Q :=
  inject_Z (Zpos m) * Qpower 2 e.

Definition format_2f (x : float) : string :=
  match Prim2SF x with
  | S754_nan => "nan"
  | S754_infinity s => if s then "-inf" else "inf"
  | S754_zero s => (if s then "-" else "") ++ "0.00"
  | S754_finite s m e =>
      let h := round_half_even (float_magnitude m e * 100) in
      (if s then "-" else "") ++ decimal (h / 100) ++ "." ++ two_digits (h mod 100)
  end.

(** ** Python strings *)

(** [str.lower()] on the ASCII letters. *)
Definition lower_ascii (c : ascii) : ascii :=
  let n := nat_of_ascii c in
  if ((65 <=? n) && (n <=? 90))%nat then ascii_of_nat (n + 32) else c.

Fixpoint lower (s : string) : string :=
  match s with
  | EmptyString => EmptyString
  | String c r => String (lower_ascii c) (lower r)
  end.

(** [sub in s]: [sub] occurs in [s] at some position. *)
Fixpoint contains (sub s : string) : bool :=
  String.prefix sub s ||
  match s with
  | EmptyString => false
  | String _ r => contains sub r
  end.

(** [s.split(sep)] for a one-character separator. *)
Fixpoint split_on (sep : ascii) (s : string) : list string :=
  match s with
  | EmptyString => [EmptyString]
  | String c r =>
      if Ascii.eqb c sep then EmptyString :: split_on sep r
      else match split_on sep r with
           | h :: t => String c h :: t
           | [] => [String c EmptyString]
           end
  end.

(** [xs[i]]: an IndexError outside the list. *)
Definition index {A} (xs : list A) (i : nat) : outcome A :=
  match nth_error xs i with
  | Some x => Return x
  | None => Raise "IndexError"
  end.

(** ** Figures *)

Section Figures.
Context {Lb : Labels}.

(** What a callback hands to a [dcc.Graph]: a bare [go.Figure] with one
    annotation, or the figure a plotly express call builds from its
    arguments. *)
Inductive figure : Type :=
| Annotated (text : string)
| PxHistogram (df : DataFrame) (x : label) (nbins : nat) (title : string)
| PxPie (df_pie : DataFrame) (names values : label) (title : string)
| PxLine (df : DataFrame) (y : label) (title : string)
| PxScatter (df : DataFrame) (x y : label) (title : string)
| PxImshow (img : DataFrame) (title : string).

Definition empty_fig : figure := Annotated "No data".

Definition figures : Type := (figure * figure * figure * figure * figure)%type.

End Figures.

(** ** The library calls

    [base64.b64decode], [bytes.decode], [pd.read_csv], [DataFrame.to_json],
    [pd.read_json], [Series.mean], [Series.value_counts().reset_index()],
    [DataFrame.corr] and the plotly express functions are library code.
    [json] is the text kept in the session store: [to_json] never returns
    the empty text, so [not json_data] in the callbacks holds exactly when
    the store holds [None].  [px_error f] is the exception plotly express
    raises instead of building the figure [f], if it does.  Of the mean the
    model knows that it is one for every numeric column
    ([series_mean_numeric]). *)
Class Library {Lb : Labels} : Type := {
  json : Type;
  b64decode : string -> outcome (list Byte.byte);
  decode_utf8 : list Byte.byte -> outcome string;
  read_csv : string -> outcome DataFrame;
  to_json : DataFrame -> json;
  read_json : json -> DataFrame;
  series_mean : Column -> outcome float;
  series_mean_numeric :
    forall c, is_number c = true ->
              exists m, series_mean c = Return m /\ is_mean (numeric_values c) m;
  value_counts_reset_index : Column -> outcome DataFrame;
  corr : DataFrame -> outcome DataFrame;
  px_error : figure -> option string
}.

(** A run of [store_csv] records the library calls it makes, in order. *)
Inductive lib_call : Type :=
| Call_b64decode
| Call_decode_utf8
| Call_read_csv
| Call_to_json.

Definition M (A : Type) : Type := (list lib_call * outcome A)%type.

Definition ret {A} (a : A) : M A := ([], Return a).

Definition raise {A} (e : string) : M A := ([], Raise e).

Definition bind {A B} (m : M A) (k : A -> M B) : M B :=
  match m with
  | (t, Return a) => let (t', r) := k a in ((t ++ t')%list, r)
  | (t, Raise e) => (t, Raise e)
  end.

(** A library call: logged, then its result or its exception. *)
Definition call {A} (c : lib_call) (r : outcome A) : M A := ([c], r).

(** [try: m  except Exception as e: h e]. *)
Definition try_except {A} (m : M A) (h : string -> M A) : M A :=
  match m with
  | (t, Raise e) => let (t', r) := h e in ((t ++ t')%list, r)
  | _ => m
  end.

Declare Scope py_scope.
Notation "x <- m ;; k" := (bind m (fun x => k))
  (at level 61, m at next level, right associativity) : py_scope.
Notation "x <~ m ;; k" := (obind m (fun x => k))
  (at level 61, m at next level, right associativity) : py_scope.
Open Scope py_scope.

(** ** The page components the callbacks write *)

(** The children of [upload-status]: a text or a [dbc.Alert]. *)
Inductive element : Type :=
| Text (s : string)
| Alert (msg : string) (color : string).

(** ** Callback 1: [store_csv] *)

Section Callbacks.
Context {Lb : Labels} {L : Library}.

Definition store_csv (contents filename : option string)
  : M (option json * element) :=
  match contents with
  | None => ret (None, Text "")
  | Some contents =>
      match filename with
      | None => raise "AttributeError"
      | Some filename =>
          if negb (contains "csv" (lower filename)) then
            ret (None, Alert "Please upload a .csv file." "danger")
          else
            match split_on "," contents with
            | [content_type; content_string] =>
                decoded <- call Call_b64decode (b64decode content_string) ;;
                r <- try_except
                       (text <- call Call_decode_utf8 (decode_utf8 decoded) ;;
                        df <- call Call_read_csv (read_csv text) ;;
                        ret (inl df))
                       (fun e =>
                          ret (inr (None,
                                    Alert ("Error processing file: " ++ e) "danger"))) ;;
                match r with
                | inr early => ret early
                | inl df =>
                    if df_empty df then
                      ret (None, Alert "Uploaded CSV is empty." "warning")
                    else
                      j <- call Call_to_json (Return (to_json df)) ;;
                      ret (Some j, Alert "File uploaded successfully!" "success")
                end
            | _ => raise "ValueError"
            end
      end
  end.

(** ** Callback 2: [populate_numeric_dropdowns] *)

Record dd_option : Type := { label_of : label; value : label }.

Definition populate_numeric_dropdowns (json_data : option json)
  : list dd_option * list dd_option :=
  match json_data with
  | None => ([], [])
  | Some j =>
      let df := read_json j in
      let numeric_cols := numeric_columns df in
      let options := map (fun col => {| label_of := col; value := col |}) numeric_cols in
      (options, options)
  end.

(** ** Callback 3: [update_kpis] *)

(** The body of [for i in range(4)], on the list [values] built so far. *)
Definition kpi_step (df : DataFrame) (numeric_cols : list label)
    (values : list string) (i : nat) : outcome (list string) :=
  if (i <? List.length numeric_cols)%nat then
    l <~ index numeric_cols i ;;
    c <~ getitem df l ;;
    col_mean <~ series_mean c ;;
    Return (List.app values [label_str l ++ " Avg: " ++ format_2f col_mean])
  else
    Return (List.app values ["-"]).

Fixpoint kpi_loop (df : DataFrame) (numeric_cols : list label)
    (range : list nat) (values : list string) : outcome (list string) :=
  match range with
  | [] => Return values
  | i :: rest =>
      values' <~ kpi_step df numeric_cols values i ;;
      kpi_loop df numeric_cols rest values'
  end.

Definition update_kpis (json_data : option json)
  : outcome (string * string * string * string) :=
  match json_data with
  | None => Return ("-", "-", "-", "-")
  | Some j =>
      let df := read_json j in
      let numeric_cols := numeric_columns df in
      values <~ kpi_loop df numeric_cols (seq 0 4) [] ;;
      v0 <~ index values 0 ;;
      v1 <~ index values 1 ;;
      v2 <~ index values 2 ;;
      v3 <~ index values 3 ;;
      Return (v0, v1, v2, v3)
  end.

(** ** Callback 4: [update_charts] *)

(** Truth value of a dropdown value: [None] is false, and so is a label
    that Python takes for false (the integer 0, the empty text). *)
Definition truthy (v : option label) : bool :=
  match v with
  | Some l => label_truthy l
  | None => false
  end.

(** [v in numeric_cols]. *)
Definition is_in (v : option label) (numeric_cols : list label) : bool :=
  match v with
  | Some l => existsb (label_eqb l) numeric_cols
  | None => false
  end.

(** The first [if]: the primary column, or [None] where the callback
    returns the empty figures. *)
Definition default_col1 (numeric_cols : list label) (col1 : option label)
  : option label :=
  if negb (truthy col1) || negb (is_in col1 numeric_cols) then
    if (0 <? List.length numeric_cols)%nat then nth_error numeric_cols 0
    else None
  else col1.

(** The second [if]: the secondary column, or Python's [None]. *)
Definition default_col2 (numeric_cols : list label) (col2 : option label)
  : option label :=
  if negb (truthy col2) || negb (is_in col2 numeric_cols) then
    if (1 <? List.length numeric_cols)%nat then nth_error numeric_cols 1
    else None
  else col2.

(** A plotly express call: the figure of its arguments, or the exception
    plotly raises on them. *)
Definition px (f : figure) : outcome figure :=
  match px_error f with
  | Some e => Raise e
  | None => Return f
  end.

(** Block 2 of [update_charts]: the pie chart of the value counts of
    [col1], in a frame whose columns are renamed [col1] and ["Count"]. *)
Definition pie_figure (df : DataFrame) (col1 : label) : outcome figure :=
  counted <~ getitem df col1 ;;
  df_pie <~ value_counts_reset_index counted ;;
  df_pie <~ set_columns df_pie [col1; label_of_string "Count"] ;;
  px (PxPie df_pie col1 (label_of_string "Count")
            ("Pie Chart of " ++ label_str col1)).

(** Block 4 of [update_charts]: the scatter plot if [col2] is true. *)
Definition scatter_figure (df : DataFrame) (col1 : label) (col2 : option label)
  : outcome figure :=
  match col2 with
  | Some c2 =>
      if label_truthy c2 then
        px (PxScatter df col1 c2
                      ("Scatter: " ++ label_str col1 ++ " vs " ++ label_str c2))
      else Return (Annotated "Not enough numeric columns for Scatter Plot")
  | None => Return (Annotated "Not enough numeric columns for Scatter Plot")
  end.

(** Block 5 of [update_charts]: the heatmap of [df[numeric_cols].corr()] if
    there are at least two numeric columns. *)
Definition heatmap_figure (df : DataFrame) (numeric_cols : list label)
  : outcome figure :=
  if (2 <=? List.length numeric_cols)%nat then
    m <~ corr (getitems df numeric_cols) ;;
    px (PxImshow m "Correlation Heatmap")
  else
    Return (Annotated "Not enough numeric columns for Heatmap").

(** Blocks 1 to 5 of [update_charts], with the two columns decided. *)
Definition draw_charts (df : DataFrame) (numeric_cols : list label)
    (col1 : label) (col2 : option label) : outcome figures :=
  fig1 <~ px (PxHistogram df col1 20 ("Histogram of " ++ label_str col1)) ;;
  fig2 <~ pie_figure df col1 ;;
  fig3 <~ px (PxLine df col1 ("Line Chart of " ++ label_str col1 ++ " over Index")) ;;
  fig4 <~ scatter_figure df col1 col2 ;;
  fig5 <~ heatmap_figure df numeric_cols ;;
  Return (fig1, fig2, fig3, fig4, fig5).

Definition update_charts (json_data : option json) (col1 col2 : option label)
  : outcome figures :=
  match json_data with
  | None => Return (empty_fig, empty_fig, empty_fig, empty_fig, empty_fig)
  | Some j =>
      let df := read_json j in
      let numeric_cols := numeric_columns df in
      match default_col1 numeric_cols col1 with
      | None => Return (empty_fig, empty_fig, empty_fig, empty_fig, empty_fig)
      | Some col1 =>
          let col2 := default_col2 numeric_cols col2 in
          draw_charts df numeric_cols col1 col2
      end
  end.

End Callbacks.

(** ** The page and Dash's dispatch of callbacks

    A callback is declared with the properties it listens to ([Input]),
    the properties it only reads ([State]) and the properties it writes
    ([Output]).  When properties change, Dash runs the callbacks that
    listen to one of them; what a callback writes counts as changed for the
    callbacks after it.  A callback that raises writes nothing. *)

Inductive prop_id : Type :=
| Upload_contents | Upload_filename
| Stored_data | Upload_status
| Dropdown1_options | Dropdown2_options
| Dropdown1_value | Dropdown2_value
| Kpi1_children | Kpi2_children | Kpi3_children | Kpi4_children
| Chart1_figure | Chart2_figure | Chart3_figure | Chart4_figure
| Heatmap_figure.

Definition prop_id_eq_dec (a b : prop_id) : {a = b} + {a <> b}.
Proof. decide equality. Defined.

Definition prop_in (a : prop_id) (l : list prop_id) : bool :=
  existsb (fun b => if prop_id_eq_dec a b then true else false) l.

Section Dash.
Context {Lb : Labels} {L : Library}.

(** The values of the properties the callbacks read or write. *)
Record page : Type := {
  upload_contents : option string;
  upload_filename : option string;
  stored_data : option json;
  upload_status : element;
  dropdown_options : list dd_option * list dd_option;
  dropdown1_value : option label;
  dropdown2_value : option label;
  kpis : string * string * string * string;
  charts : figures
}.

Record callback : Type := {
  cb_inputs : list prop_id;
  cb_states : list prop_id;
  cb_outputs : list prop_id;
  cb_run : page -> outcome page
}.

Definition cb_store_csv : callback := {|
  cb_inputs := [Upload_contents];
  cb_states := [Upload_filename];
  cb_outputs := [Stored_data; Upload_status];
  cb_run := fun p =>
    r <~ snd (store_csv (upload_contents p) (upload_filename p)) ;;
    Return {| upload_contents := upload_contents p;
              upload_filename := upload_filename p;
              stored_data := fst r;
              upload_status := snd r;
              dropdown_options := dropdown_options p;
              dropdown1_value := dropdown1_value p;
              dropdown2_value := dropdown2_value p;
              kpis := kpis p;
              charts := charts p |}
|}.

Definition cb_populate_numeric_dropdowns : callback := {|
  cb_inputs := [Stored_data];
  cb_states := [];
  cb_outputs := [Dropdown1_options; Dropdown2_options];
  cb_run := fun p =>
    Return {| upload_contents := upload_contents p;
              upload_filename := upload_filename p;
              stored_data := stored_data p;
              upload_status := upload_status p;
              dropdown_options := populate_numeric_dropdowns (stored_data p);
              dropdown1_value := dropdown1_value p;
              dropdown2_value := dropdown2_value p;
              kpis := kpis p;
              charts := charts p |}
|}.

Definition cb_update_kpis : callback := {|
  cb_inputs := [Stored_data];
  cb_states := [];
  cb_outputs := [Kpi1_children; Kpi2_children; Kpi3_children; Kpi4_children];
  cb_run := fun p =>
    r <~ update_kpis (stored_data p) ;;
    Return {| upload_contents := upload_contents p;
              upload_filename := upload_filename p;
              stored_data := stored_data p;
              upload_status := upload_status p;
              dropdown_options := dropdown_options p;
              dropdown1_value := dropdown1_value p;
              dropdown2_value := dropdown2_value p;
              kpis := r;
              charts := charts p |}
|}.

Definition cb_update_charts : callback := {|
  cb_inputs := [Stored_data; Dropdown1_value; Dropdown2_value];
  cb_states := [];
  cb_outputs := [Chart1_figure; Chart2_figure; Chart3_figure; Chart4_figure;
                 Heatmap_figure];
  cb_run := fun p =>
    r <~ update_charts (stored_data p) (dropdown1_value p) (dropdown2_value p) ;;
    Return {| upload_contents := upload_contents p;
              upload_filename := upload_filename p;
              stored_data := stored_data p;
              upload_status := upload_status p;
              dropdown_options := dropdown_options p;
              dropdown1_value := dropdown1_value p;
              dropdown2_value := dropdown2_value p;
              kpis := kpis p;
              charts := r |}
|}.

(** The callbacks in the order of the file, which is an order of their
    dependencies: none listens to an output of a later one. *)
Definition callbacks : list callback :=
  [cb_store_csv; cb_populate_numeric_dropdowns; cb_update_kpis; cb_update_charts].

Definition triggered (changed : list prop_id) (cb : callback) : bool :=
  existsb (fun i => prop_in i changed) (cb_inputs cb).

Fixpoint run_callbacks (cbs : list callback) (changed : list prop_id) (p : page)
  : page :=
  match cbs with
  | [] => p
  | cb :: rest =>
      if triggered changed cb then
        match cb_run cb p with
        | Return p' => run_callbacks rest (changed ++ cb_outputs cb)%list p'
        | Raise _ => run_callbacks rest changed p
        end
      else run_callbacks rest changed p
  end.

(** What the user does on the page. *)
Inductive event : Type :=
| Upload (contents filename : string)
| Select_primary (v : option label)
| Select_secondary (v : option label).

Definition set_upload (contents filename : string) (p : page) : page :=
  {| upload_contents := Some contents;
     upload_filename := Some filename;
     stored_data := stored_data p;
     upload_status := upload_status p;
     dropdown_options := dropdown_options p;
     dropdown1_value := dropdown1_value p;
     dropdown2_value := dropdown2_value p;
     kpis := kpis p;
     charts := charts p |}.

Definition set_dropdown1 (v : option label) (p : page) : page :=
  {| upload_contents := upload_contents p;
     upload_filename := upload_filename p;
     stored_data := stored_data p;
     upload_status := upload_status p;
     dropdown_options := dropdown_options p;
     dropdown1_value := v;
     dropdown2_value := dropdown2_value p;
     kpis := kpis p;
     charts := charts p |}.

Definition set_dropdown2 (v : option label) (p : page) : page :=
  {| upload_contents := upload_contents p;
     upload_filename := upload_filename p;
     stored_data := stored_data p;
     upload_status := upload_status p;
     dropdown_options := dropdown_options p;
     dropdown1_value := dropdown1_value p;
     dropdown2_value := v;
     kpis := kpis p;
     charts := charts p |}.

Definition step (p : page) (e : event) : page :=
  match e with
  | Upload contents filename =>
      run_callbacks callbacks [Upload_contents; Upload_filename]
                    (set_upload contents filename p)
  | Select_primary v =>
      run_callbacks callbacks [Dropdown1_value] (set_dropdown1 v p)
  | Select_secondary v =>
      run_callbacks callbacks [Dropdown2_value] (set_dropdown2 v p)
  end.

(** The page once it has loaded: nothing uploaded, every callback has run
    once on that. *)
Definition initial_page : page :=
  {| upload_contents := None;
     upload_filename := None;
     stored_data := None;
     upload_status := Text "";
     dropdown_options := ([], []);
     dropdown1_value := None;
     dropdown2_value := None;
     kpis := ("-", "-", "-", "-");
     charts := (empty_fig, empty_fig, empty_fig, empty_fig, empty_fig) |}.

Inductive reachable : page -> Prop :=
| reachable_initial : reachable initial_page
| reachable_step p e : reachable p -> reachable (step p e).

End Dash.

(** ** A small implementation of the labels and of the library calls

    Used to run the callbacks on concrete tables and uploads.  Labels are
    texts and integers.  The reader takes plain ASCII comma-separated text
    with distinct header fields: base64 in the standard alphabet, lines
    separated by a line feed, unquoted fields, numbers written as an
    optional sign, digits and an optional fraction.  The session store
    keeps the frame itself, and reading it back makes integers of header
    fields that are all integer numerals.  The mean adds the values from left to right;
    the correlation follows pandas' [nancorr]. *)
Module Reference.

Inductive ref_label : Type :=
| LStr (s : string)
| LInt (z : Z).

Definition ref_label_eqb (a b : ref_label) : bool :=
  match a, b with
  | LStr x, LStr y => String.eqb x y
  | LInt x, LInt y => Z.eqb x y
  | _, _ => false
  end.

Definition ref_label_truthy (a : ref_label) : bool :=
  match a with
  | LStr s => negb (String.eqb s "")
  | LInt z => negb (Z.eqb z 0)
  end.

Definition ref_label_str (a : ref_label) : string :=
  match a with
  | LStr s => s
  | LInt z => (if (z <? 0)%Z then "-" else "") ++ decimal (Z.abs z)
  end.

#[export] Instance labels : Labels.
Proof.
  refine {| label := ref_label;
            label_eqb := ref_label_eqb;
            label_truthy := ref_label_truthy;
            label_str := ref_label_str;
            label_of_string := LStr |}.
  intros [x|x] [y|y]; split; try discriminate; intros H.
  - apply String.eqb_eq in H. now subst.
  - inversion H. apply String.eqb_refl.
  - apply Z.eqb_eq in H. now subst.
  - inversion H. apply Z.eqb_refl.
Defined.

Definition b64_value (c : ascii) : option N :=
  let n := N_of_ascii c in
  if (65 <=? n)%N && (n <=? 90)%N then Some (n - 65)%N
  else if (97 <=? n)%N && (n <=? 122)%N then Some (n - 71)%N
  else if (48 <=? n)%N && (n <=? 57)%N then Some (n + 4)%N
  else if (n =? 43)%N then Some 62%N
  else if (n =? 47)%N then Some 63%N
  else None.

Definition byte_of_N (n : N) : Byte.byte := byte_of_ascii (ascii_of_N n).

Definition is_pad (c : ascii) : bool := Ascii.eqb c "=".

(** Four characters give three bytes; ["="] pads the last group. *)
Fixpoint b64_groups (cs : list ascii) : outcome (list Byte.byte) :=
  match cs with
  | [] => Return []
  | a :: b :: c :: d :: rest =>
      match b64_value a, b64_value b with
      | Some va, Some vb =>
          let b0 := byte_of_N ((va * 4 + vb / 16) mod 256) in
          if is_pad c && is_pad d then
            match rest with
            | [] => Return [b0]
            | _ => Raise "Incorrect padding"
            end
          else
            match b64_value c with
            | Some vc =>
                let b1 := byte_of_N ((vb * 16 + vc / 4) mod 256) in
                if is_pad d then
                  match rest with
                  | [] => Return [b0; b1]
                  | _ => Raise "Incorrect padding"
                  end
                else
                  match b64_value d with
                  | Some vd =>
                      let b2 := byte_of_N ((vc * 64 + vd) mod 256) in
                      tail <~ b64_groups rest ;;
                      Return (b0 :: b1 :: b2 :: tail)
                  | None => Raise "Invalid base64 character"
                  end
            | None => Raise "Invalid base64 character"
            end
      | _, _ => Raise "Invalid base64 character"
      end
  | _ => Raise "Incorrect padding"
  end.

Definition decode_base64 (s : string) : outcome (list Byte.byte) :=
  b64_groups (list_ascii_of_string s).

Definition decode_ascii (bs : list Byte.byte) : outcome string :=
  if forallb (fun b => (Byte.to_N b <? 128)%N) bs
  then Return (string_of_list_byte bs)
  else Raise "'utf-8' codec can't decode byte".

Definition digit_value (c : ascii) : option Z :=
  let n := Z.of_N (N_of_ascii c) in
  if (48 <=? n)%Z && (n <=? 57)%Z then Some (n - 48)%Z else None.

(** Digits with at most one point, read as [acc / scale]. *)
Fixpoint parse_unsigned (s : string) (acc : Z) (scale : positive)
    (in_fraction seen_digit : bool) : option Q :=
  match s with
  | EmptyString => if seen_digit then Some (acc # scale) else None
  | String c r =>
      if Ascii.eqb c "." then
        if in_fraction then None
        else parse_unsigned r acc scale true seen_digit
      else
        match digit_value c with
        | Some d =>
            parse_unsigned r (acc * 10 + d)%Z
                           (if in_fraction then (scale * 10)%positive else scale)
                           in_fraction true
        | None => None
        end
  end.

Definition parse_number (s : string) : option Q :=
  match s with
  | String c r =>
      if Ascii.eqb c "-" then option_map Qopp (parse_unsigned r 0 1 false false)
      else if Ascii.eqb c "+" then parse_unsigned r 0 1 false false
      else parse_unsigned s 0 1 false false
  | EmptyString => None
  end.

(** The float of a decimal numeral [n / 10^k]: one division of two exact
    floats, for numerals of at most 15 digits. *)
Definition float_of_decimal (q : Q) : float :=
  (float_of_Z (Qnum q) / float_of_Z (Zpos (Qden q)))%float.

Definition is_blank (s : string) : bool := String.eqb s "".

Definition integer_cell (s : string) : option Z :=
  if contains "." s then None
  else option_map Qnum (parse_number s).

Definition number_cell (s : string) : option float :=
  if is_blank s then Some nan else option_map float_of_decimal (parse_number s).

Definition bool_cell (s : string) : option bool :=
  if String.eqb s "True" then Some true
  else if String.eqb s "False" then Some false
  else None.

Fixpoint all_some {A} (xs : list (option A)) : option (list A) :=
  match xs with
  | [] => Some []
  | Some x :: r => option_map (cons x) (all_some r)
  | None :: _ => None
  end.

(** The column of the cells: integers if every cell is one, floats if
    every cell that is not blank is a number, booleans if every cell is
    one, text otherwise. *)
Definition infer_series (cells : list string) : Series :=
  match all_some (map integer_cell cells) with
  | Some zs => Integer zs
  | None =>
      match all_some (map number_cell cells) with
      | Some xs => Numeric xs
      | None =>
          match all_some (map bool_cell cells) with
          | Some bs => Boolean bs
          | None => Object (map (fun s => if is_blank s then None else Some s) cells)
          end
      end
  end.

Definition line_feed : ascii := ascii_of_nat 10.

Definition parse_csv (text : string) : outcome DataFrame :=
  match filter (fun l => negb (is_blank l)) (split_on line_feed text) with
  | [] => Raise "No columns to parse from file"
  | header :: lines =>
      let names := split_on "," header in
      let rows := map (split_on ",") lines in
      if existsb (fun row => (List.length names <? List.length row)%nat) rows then
        Raise "Error tokenizing data"
      else
        Return {| index_len := List.length rows;
                  columns :=
                    map (fun i =>
                           {| name := LStr (nth i names "");
                              data := infer_series
                                        (map (fun row => nth i row "") rows) |})
                        (seq 0 (List.length names)) |}
  end.

Definition bool_to_float (b : bool) : float := if b then 1%float else 0%float.

(** The mean of the values, added from left to right from 0. *)
Definition mean_floats (xs : list float) : float :=
  match valid xs with
  | [] => nan
  | v => (fold_left PrimFloat.add v 0 / float_of_nat (List.length v))%float
  end.

Definition mean (c : Column) : outcome float :=
  match data c with
  | Integer zs => Return (mean_floats (map float_of_Z zs))
  | Numeric xs => Return (mean_floats xs)
  | Boolean bs => Return (mean_floats (map bool_to_float bs))
  | Object _ => Raise "TypeError"
  end.

(** The distinct values with the number of times each occurs, in the
    order of their first occurrence. *)
Fixpoint bump {A} (eqb : A -> A -> bool) (x : A) (acc : list (A * Z))
  : list (A * Z) :=
  match acc with
  | [] => [(x, 1%Z)]
  | (y, n) :: t => if eqb x y then (y, (n + 1)%Z) :: t else (y, n) :: bump eqb x t
  end.

Definition count_values {A} (eqb : A -> A -> bool) (xs : list A) : list (A * Z) :=
  fold_left (fun acc x => bump eqb x acc) xs [].

Fixpoint insert_desc {A} (p : A * Z) (l : list (A * Z)) : list (A * Z) :=
  match l with
  | [] => [p]
  | q :: t => if (snd q <? snd p)%Z then p :: q :: t else q :: insert_desc p t
  end.

Definition sort_desc {A} (l : list (A * Z)) : list (A * Z) :=
  fold_left (fun acc p => insert_desc p acc) l [].

Fixpoint somes {A} (xs : list (option A)) : list A :=
  match xs with
  | [] => []
  | Some x :: r => x :: somes r
  | None :: r => somes r
  end.

(** [value_counts().reset_index()] as pandas 2 has it: the values by
    falling count, the counts in a column labelled ["count"]; an exception
    if the counted column carries that label. *)
Definition value_counts (c : Column) : outcome DataFrame :=
  if ref_label_eqb (name c) (LStr "count") then
    Raise "cannot insert count, already exists"
  else
    let frame (values : Series) (counts : list Z) :=
      Return {| index_len := List.length counts;
                columns := [ {| name := name c; data := values |};
                             {| name := LStr "count"; data := Integer counts |} ] |} in
    match data c with
    | Integer zs =>
        let vc := sort_desc (count_values Z.eqb zs) in
        frame (Integer (map fst vc)) (map snd vc)
    | Numeric xs =>
        let vc := sort_desc (count_values PrimFloat.eqb (valid xs)) in
        frame (Numeric (map fst vc)) (map snd vc)
    | Boolean bs =>
        let vc := sort_desc (count_values Bool.eqb bs) in
        frame (Boolean (map fst vc)) (map snd vc)
    | Object ss =>
        let vc := sort_desc (count_values String.eqb (somes ss)) in
        frame (Object (map Some (map fst vc))) (map snd vc)
    end.

(** One cell of [nancorr]: the running means and sums over the rows in
    which both cells are finite, and the quotient kept within -1 and 1. *)
Fixpoint nancorr_sums (xs ys : list float)
    (nobs meanx meany ssqdx ssqdy covxy : float)
  : float * float * float * float :=
  match xs, ys with
  | x :: xr, y :: yr =>
      if negb (PrimFloat.is_finite x) || negb (PrimFloat.is_finite y) then
        nancorr_sums xr yr nobs meanx meany ssqdx ssqdy covxy
      else
        let nobs := (nobs + 1)%float in
        let dx := (x - meanx)%float in
        let dy := (y - meany)%float in
        let meanx := (meanx + 1 / nobs * dx)%float in
        let meany := (meany + 1 / nobs * dy)%float in
        nancorr_sums xr yr nobs meanx meany
                     (ssqdx + (x - meanx) * dx)%float
                     (ssqdy + (y - meany) * dy)%float
                     (covxy + (x - meanx) * dy)%float
  | _, _ => (nobs, ssqdx, ssqdy, covxy)
  end.

Definition nancorr_cell (xs ys : list float) : float :=
  let '(nobs, ssqdx, ssqdy, covxy) := nancorr_sums xs ys 0 0 0 0 0 0 in
  if (nobs <? 1)%float then nan
  else
    let divisor := PrimFloat.sqrt (ssqdx * ssqdy) in
    if (divisor =? 0)%float then nan
    else
      let val := (covxy / divisor)%float in
      if (1 <? val)%float then 1%float
      else if (val <? -1)%float then (-1)%float
      else val.

Definition to_floats (c : Column) : outcome (list float) :=
  match data c with
  | Integer zs => Return (map float_of_Z zs)
  | Numeric xs => Return xs
  | Boolean bs => Return (map bool_to_float bs)
  | Object _ => Raise "ValueError"
  end.

Fixpoint all_floats (cs : list Column) : outcome (list (list float)) :=
  match cs with
  | [] => Return []
  | c :: r =>
      xs <~ to_floats c ;;
      rest <~ all_floats r ;;
      Return (xs :: rest)
  end.

(** [DataFrame.corr()]: the matrix filled from its lower triangle,
    labelled by the columns of the frame. *)
Definition correlation (df : DataFrame) : outcome DataFrame :=
  mat <~ all_floats (columns df) ;;
  let K := List.length mat in
  Return {| index_len := K;
            columns :=
              map (fun yi =>
                     {| name := name (nth yi (columns df)
                                          {| name := LStr ""; data := Numeric [] |});
                        data := Numeric
                                  (map (fun xi =>
                                          nancorr_cell
                                            (nth (Nat.max xi yi) mat [])
                                            (nth (Nat.min xi yi) mat []))
                                       (seq 0 K)) |})
                  (seq 0 K) |}.

(** [pd.read_json] with its default [convert_axes]: header fields that
    are all integer numerals come back as integers. *)
Definition axis_label (l : ref_label) : option Z :=
  match l with
  | LStr s => integer_cell s
  | LInt z => Some z
  end.

Definition convert_axes (df : DataFrame) : DataFrame :=
  match all_some (map (fun c => axis_label (name c)) (columns df)) with
  | Some zs =>
      {| index_len := index_len df;
         columns := map (fun cz => {| name := LInt (snd cz); data := data (fst cz) |})
                        (combine (columns df) zs) |}
  | None => df
  end.

(** plotly express refuses a pie whose [names] and [values] are the same
    column. *)
Definition plotly_error (f : figure) : option string :=
  match f with
  | PxPie _ names values _ =>
      if ref_label_eqb names values then Some "ValueError" else None
  | _ => None
  end.

#[export] Instance library : Library.
Proof.
  refine {| json := DataFrame;
            b64decode := decode_base64;
            decode_utf8 := decode_ascii;
            read_csv := parse_csv;
            to_json := fun df => df;
            read_json := convert_axes;
            series_mean := mean;
            value_counts_reset_index := value_counts;
            corr := correlation;
            px_error := plotly_error |}.
  assert (Hfold : forall (r l : list float) (acc : float),
             float_sum l acc ->
             float_sum (l ++ r)%list (fold_left PrimFloat.add r acc)).
  { induction r as [|x r IH]; intros l acc H.
    - now rewrite app_nil_r.
    - cbn [fold_left].
      replace (l ++ x :: r)%list with ((l ++ [x]) ++ r)%list
        by now rewrite <- app_assoc.
      apply IH. apply float_sum_add; [exact H|apply float_sum_one]. }
  assert (Hmean : forall xs, is_mean xs (mean_floats xs)).
  { intros xs. unfold is_mean, mean_floats.
    destruct (valid xs) as [|x v]; [reflexivity|].
    exists [0%float], (fold_left PrimFloat.add (x :: v) 0%float).
    split; [constructor; [now left|constructor]|]. split; [|reflexivity].
    apply (float_sum_perm ([0%float] ++ x :: v)%list);
      [apply Permutation_app_comm|].
    apply Hfold. apply float_sum_one. }
  intros c Hc. unfold mean, numeric_values. unfold is_number in Hc.
  destruct (data c); try discriminate; eexists; split; try reflexivity;
    apply Hmean.
Defined.

End Reference.

(** ** Notions used to state the properties *)

Section Notions.
Context {Lb : Labels} {L : Library}.

(** The labels of the frame are pairwise distinct. *)
Definition unique_labels (df : DataFrame) : Prop := NoDup (map name (columns df)).

(** The entry [update_kpis] builds for position [i]: what one turn of its
    loop appends.  The mean of a numeric column returns
    ([series_mean_numeric]), so the [Raise] case is never taken. *)
Definition kpi_entry (df : DataFrame) (i : nat) : string :=
  match nth_error (filter is_number (columns df)) i with
  | Some c =>
      match series_mean c with
      | Return m => label_str (name c) ++ " Avg: " ++ format_2f m
      | Raise _ => "-"
      end
  | None => "-"
  end.

(** The three ways an upload is refused, with the alert shown for each:
    the name does not pass the CSV check; decoding the text or reading it
    raises; the frame read is empty. *)
Inductive ingest_error (contents filename : string) : element -> Prop :=
| Bad_extension :
    contains "csv" (lower filename) = false ->
    ingest_error contents filename (Alert "Please upload a .csv file." "danger")
| Parse_failure content_type content_string decoded e :
    contains "csv" (lower filename) = true ->
    split_on "," contents = [content_type; content_string] ->
    b64decode content_string = Return decoded ->
    (decode_utf8 decoded = Raise e \/
     exists text, decode_utf8 decoded = Return text /\ read_csv text = Raise e) ->
    ingest_error contents filename
                 (Alert ("Error processing file: " ++ e) "danger")
| Empty_table content_type content_string decoded text df :
    contains "csv" (lower filename) = true ->
    split_on "," contents = [content_type; content_string] ->
    b64decode content_string = Return decoded ->
    decode_utf8 decoded = Return text ->
    read_csv text = Return df ->
    df_empty df = true ->
    ingest_error contents filename (Alert "Uploaded CSV is empty." "warning").

(** The placeholders of charts 4 and 5. *)
Definition scatter_placeholder : figure :=
  Annotated "Not enough numeric columns for Scatter Plot".

Definition heatmap_placeholder : figure :=
  Annotated "Not enough numeric columns for Heatmap".

End Notions.

(** The status shows a refused upload. *)
Definition is_error (status : element) : Prop :=
  match status with
  | Alert _ color => color <> "success"
  | Text _ => False
  end.

(** The text shows the float with two decimals: [nan], [inf] or [-inf]
    for a float that is not finite, and else the sign and the decimal
    numeral of the hundredths [h] nearest to the exact value of the float,
    the even one of two nearest. *)
Definition shows_two_decimals (x : float) (text : string) : Prop :=
  match Prim2SF x with
  | S754_nan => text = "nan"
  | S754_infinity s => text = if s then "-inf" else "inf"
  | S754_zero s => text = (if s then "-" else "") ++ "0.00"
  | S754_finite s m e =>
      exists h : Z,
        (Qabs (float_magnitude m e * 100 - inject_Z h) <= 1 # 2)%Q /\
        ((Qabs (float_magnitude m e * 100 - inject_Z h) == 1 # 2)%Q ->
         Z.even h = true) /\
        text = (if s then "-" else "") ++ decimal (h / 100) ++ "."
               ++ decimal (h mod 100 / 10) ++ decimal (h mod 100 mod 10)
  end.

(** The reading of the spec, for C7: a name indicates a CSV file when it
    ends in [.csv], in any letter case. *)
Definition spec_indicates_csv (filename : string) : bool :=
  let n := String.length filename in
  String.eqb (substring (n - 4) 4 (lower filename)) ".csv".

(** The reading of the spec, for C1: the arithmetic mean of the cells as
    an exact number, shown with two decimals. *)
Definition spec_mean_text (cells : list Z) : string :=
  let q := (inject_Z (fold_right Z.add 0%Z cells)
            / inject_Z (Z.of_nat (List.length cells)))%Q in
  let h := round_half_even (Qabs q * 100) in
  (if (Qnum q <? 0)%Z then "-" else "")
  ++ decimal (h / 100) ++ "." ++ two_digits (h mod 100).

(** The number of occurrences of a character in a text. *)
Fixpoint count_char (c : ascii) (s : string) : nat :=
  match s with
  | EmptyString => 0
  | String a r => (if Ascii.eqb a c then 1 else 0) + count_char c r
  end.

(** The library calls of a run of [store_csv] that stores a table, in the
    order of the source. *)
Definition call_order : list lib_call :=
  [Call_b64decode; Call_decode_utf8; Call_read_csv; Call_to_json].

(** The alerts of [store_csv]. *)
Definition alert_bad_name : element := Alert "Please upload a .csv file." "danger".

Definition alert_success : element := Alert "File uploaded successfully!" "success".

(** ** Tables and uploads used in the runs *)

Import Reference.

(** Three numeric columns of five rows. *)
Definition table_abc : DataFrame :=
  {| index_len := 5;
     columns :=
       [ {| name := LStr "a"; data := Integer [1; 2; 3; 4; 5]%Z |};
         {| name := LStr "b"; data := Numeric [2; 4; 6; 8; 11]%float |};
         {| name := LStr "c"; data := Numeric [0.5; nan; 1.5; 0; 7]%float |} ] |}.

(** The option of column [b] in the dropdowns. *)
Definition option_b : dd_option := {| label_of := LStr "b"; value := LStr "b" |}.

(** One numeric column and two text columns. *)
Definition table_one_numeric : DataFrame :=
  {| index_len := 2;
     columns :=
       [ {| name := LStr "city"; data := Object [Some "Oslo"; Some "Rome"] |};
         {| name := LStr "n"; data := Integer [3; 4]%Z |};
         {| name := LStr "note"; data := Object [None; Some "x"] |} ] |}.



(** [table_abc] with a text column between its numeric columns. *)
Definition table_abc_note : DataFrame :=
  {| index_len := 5;
     columns :=
       [ {| name := LStr "a"; data := Integer [1; 2; 3; 4; 5]%Z |};
         {| name := LStr "note"; data := Object [Some "u"; None; None; Some "v"; None] |};
         {| name := LStr "b"; data := Numeric [2; 4; 6; 8; 11]%float |};
         {| name := LStr "c"; data := Numeric [0.5; nan; 1.5; 0; 7]%float |} ] |}.

(** A table without a numeric column. *)
Definition table_text_only : DataFrame :=
  {| index_len := 2;
     columns :=
       [ {| name := LStr "city"; data := Object [Some "Oslo"; Some "Rome"] |};
         {| name := LStr "open"; data := Boolean [true; false] |} ] |}.

(** The float written [1.7e308]. *)
Definition huge : float := 0x1.e42d130773b76p+1023%float.

(** Two cells [1.7e308] in a float column, and the cell [2^53 + 1] in an
    integer column. *)
Definition table_overflow : DataFrame :=
  {| index_len := 2;
     columns :=
       [ {| name := LStr "a"; data := Numeric [huge; huge] |};
         {| name := LStr "n"; data := Integer [9007199254740993; 9007199254740993]%Z |} ] |}.

(** Two columns with two values each, one of them with the cell [1e200]. *)
Definition table_wide : DataFrame :=
  {| index_len := 2;
     columns :=
       [ {| name := LStr "a"; data := Numeric [0; 0x1.4e718d7d7625ap+664]%float |};
         {| name := LStr "b"; data := Numeric [1; 2]%float |} ] |}.




(** The upload of a file that holds the header line [a,b] only. *)
Definition upload_header_only : string := "data:text/csv;base64,YSxiCg==".

(** The frame that upload is read into. *)
Definition frame_header_only : DataFrame :=
  {| index_len := 0;
     columns := [ {| name := LStr "a"; data := Integer [] |};
                  {| name := LStr "b"; data := Integer [] |} ] |}.

(** The upload of [a,b / 1,2]. *)
Definition upload_one_row : string := "data:text/csv;base64,YSxiCjEsMgo=".

(** A page after the upload of the one-row file. *)
Definition page_loaded : page :=
  step initial_page (Upload upload_one_row "data.csv").

(** * Runs on concrete inputs *)

Example format_pi : format_2f 0x1.921f9f01b866ep+1%float = "3.14".
Proof. reflexivity. Qed.

Example format_tie_even : format_2f 0.125%float = "0.12".
Proof. reflexivity. Qed.

Example format_tie_odd : format_2f 0.375%float = "0.38".
Proof. reflexivity. Qed.

Example format_negative : format_2f (-2.5)%float = "-2.50".
Proof. reflexivity. Qed.

Example format_small_negative : format_2f (-0x1p-10)%float = "-0.00".
Proof. reflexivity. Qed.

Example format_nan : format_2f nan = "nan".
Proof. reflexivity. Qed.

Example format_infinity : format_2f infinity = "inf".
Proof. reflexivity. Qed.

Example format_large : format_2f 0x1p+70%float = "1180591620717411303424.00".
Proof. reflexivity. Qed.

Example float_of_Z_rounds :
  float_of_Z 9007199254740993 = 9007199254740992%float.
Proof. reflexivity. Qed.

Example split_data_url :
  split_on "," "data:text/csv;base64,YSxiCg==" = ["data:text/csv;base64"; "YSxiCg=="].
Proof. reflexivity. Qed.

Example split_empty : split_on "," "" = [""].
Proof. reflexivity. Qed.

Example reference_b64 :
  Reference.decode_base64 "YSxiCjEsMgo=" = Return (list_byte_of_string "a,b
1,2
").
Proof. reflexivity. Qed.

(** * Properties *)

(** ** Frames with unique labels *)

Section FrameProperties.
Context {Lb : Labels}.

Lemma has_label_true l c : has_label l c = true <-> name c = l.
Proof. unfold has_label. apply label_eqb_eq. Qed.

Lemma filter_label_absent l cs :
  ~ In l (map name cs) -> filter (has_label l) cs = [].
Proof.
  induction cs as [|c cs IH]; simpl; intros Hn; [reflexivity|].
  destruct (has_label l c) eqn:E.
  - apply has_label_true in E. exfalso. apply Hn. now left.
  - apply IH. intros H. apply Hn. now right.
Qed.

(** With unique labels, a label selects exactly the column that carries it. *)
Lemma filter_label_unique cs c :
  NoDup (map name cs) -> In c cs -> filter (has_label (name c)) cs = [c].
Proof.
  induction cs as [|d cs IH]; simpl; intros Hnd Hin; [contradiction|].
  inversion Hnd as [|? ? Hnotin Hnd']; subst.
  destruct Hin as [->|Hin].
  - replace (has_label (name c) c) with true
      by (symmetry; now apply has_label_true).
    now rewrite filter_label_absent.
  - destruct (has_label (name c) d) eqn:E.
    + apply has_label_true in E. exfalso. apply Hnotin. rewrite E.
      now apply in_map.
    + now apply IH.
Qed.

Lemma numeric_columns_nth df i :
  nth_error (numeric_columns df) i
  = option_map name (nth_error (filter is_number (columns df)) i).
Proof. unfold numeric_columns. apply nth_error_map. Qed.

Lemma numeric_columns_length df :
  List.length (numeric_columns df)
  = List.length (filter is_number (columns df)).
Proof. unfold numeric_columns. apply length_map. Qed.

Lemma numeric_column_facts df i c :
  nth_error (filter is_number (columns df)) i = Some c ->
  In c (columns df) /\ is_number c = true.
Proof.
  intros H. apply nth_error_In in H. now apply filter_In in H.
Qed.

End FrameProperties.

Section KpiProperties.
Context {Lb : Labels} {L : Library}.

Lemma getitem_unique df c :
  unique_labels df -> In c (columns df) -> getitem df (name c) = Return c.
Proof.
  intros Hu Hin. unfold getitem. now rewrite (filter_label_unique _ _ Hu Hin).
Qed.

(** One turn of the loop appends the entry of position [i]. *)
Lemma kpi_step_entry df values i :
  unique_labels df ->
  kpi_step df (numeric_columns df) values i
  = Return (List.app values [kpi_entry df i]).
Proof.
  intros Hu. unfold kpi_step, kpi_entry. rewrite numeric_columns_length.
  destruct (nth_error (filter is_number (columns df)) i) as [c|] eqn:E.
  - assert (Hlt : (i < List.length (filter is_number (columns df)))%nat)
      by (apply nth_error_Some; congruence).
    apply Nat.ltb_lt in Hlt. rewrite Hlt.
    unfold index. rewrite numeric_columns_nth, E. simpl.
    destruct (numeric_column_facts _ _ _ E) as [Hin Hnum].
    rewrite (getitem_unique _ _ Hu Hin). simpl.
    destruct (series_mean_numeric c Hnum) as (m & Hm & _).
    rewrite Hm. reflexivity.
  - apply nth_error_None in E. apply Nat.ltb_ge in E. rewrite E. reflexivity.
Qed.

(** The four turns of the loop, and the tuple returned. *)
Lemma update_kpis_value (j : json) :
  unique_labels (read_json j) ->
  update_kpis (Some j)
  = Return (kpi_entry (read_json j) 0, kpi_entry (read_json j) 1,
            kpi_entry (read_json j) 2, kpi_entry (read_json j) 3).
Proof.
  intros Hu. unfold update_kpis. simpl seq. cbn [kpi_loop].
  rewrite (kpi_step_entry _ _ 0 Hu). cbn [obind].
  rewrite (kpi_step_entry _ _ 1 Hu). cbn [obind].
  rewrite (kpi_step_entry _ _ 2 Hu). cbn [obind].
  rewrite (kpi_step_entry _ _ 3 Hu). reflexivity.
Qed.

End KpiProperties.

(** ** The formatting with two decimals *)

(** Rounding moves a value by at most one half. *)
Lemma round_half_even_close q :
  (Qabs (q - inject_Z (round_half_even q)) <= 1 # 2)%Q.
Proof.
  destruct q as [n d]. unfold round_half_even. cbn [Qnum Qden].
  pose proof (Z.div_mod n (Zpos d) ltac:(lia)) as Hdm.
  pose proof (Z.mod_pos_bound n (Zpos d) ltac:(lia)) as Hb.
  set (f := (n / Zpos d)%Z) in *. set (r := (n mod Zpos d)%Z) in *.
  clearbody f r.
  assert (Hcase : forall z : Z,
             (- Zpos d <= 2 * (n - z * Zpos d) <= Zpos d)%Z ->
             (Qabs ((n # d) - inject_Z z) <= 1 # 2)%Q).
  { intros z Hz. apply Qabs_Qle_condition. unfold Qle, Qminus, Qplus, Qopp,
      inject_Z. cbn.
    rewrite Pos.mul_1_r.
    replace ((n * 1 + - z * Z.pos d) * 2)%Z with (2 * (n - z * Z.pos d))%Z by ring.
    change (Z.neg d) with (- Z.pos d)%Z. lia. }
  destruct (2 * r ?= Zpos d)%Z eqn:E.
  - apply Z.compare_eq in E. destruct (Z.even f); apply Hcase; nia.
  - rewrite Z.compare_lt_iff in E. apply Hcase; nia.
  - rewrite Z.compare_gt_iff in E. apply Hcase; nia.
Qed.

(** Of two nearest integers, rounding takes the even one. *)
Lemma round_half_even_tie q :
  (Qabs (q - inject_Z (round_half_even q)) == 1 # 2)%Q ->
  Z.even (round_half_even q) = true.
Proof.
  destruct q as [n d]. unfold round_half_even. cbn [Qnum Qden].
  pose proof (Z.div_mod n (Zpos d) ltac:(lia)) as Hdm.
  pose proof (Z.mod_pos_bound n (Zpos d) ltac:(lia)) as Hb.
  set (f := (n / Zpos d)%Z) in *. set (r := (n mod Zpos d)%Z) in *.
  assert (Hdist : forall z : Z,
             (Qabs ((n # d) - inject_Z z) == 1 # 2)%Q ->
             (2 * Z.abs (n - z * Zpos d) = Zpos d)%Z).
  { intros z Hz.
    assert (E : ((n # d) - inject_Z z == (n - z * Zpos d) # d)%Q).
    { unfold Qeq, Qminus, Qplus, Qopp, inject_Z. cbn. rewrite Pos.mul_1_r. ring. }
    rewrite E in Hz. unfold Qabs, Qeq in Hz. cbn in Hz. lia. }
  destruct (2 * r ?= Zpos d)%Z eqn:E.
  - intros _. destruct (Z.even f) eqn:Ef; [exact Ef|].
    rewrite Z.even_add, Ef. reflexivity.
  - rewrite Z.compare_lt_iff in E. intros H. apply Hdist in H. clearbody f r. nia.
  - rewrite Z.compare_gt_iff in E. intros H. apply Hdist in H. clearbody f r. nia.
Qed.

(** [format_2f] shows its float with two decimals. *)
Lemma format_2f_shows x : shows_two_decimals x (format_2f x).
Proof.
  unfold shows_two_decimals, format_2f.
  destruct (Prim2SF x) as [s|s| |s m e]; try reflexivity.
  exists (round_half_even (float_magnitude m e * 100)).
  split; [apply round_half_even_close|].
  split; [apply round_half_even_tie|]. reflexivity.
Qed.

(** ** The KPI cards *)

Section KpiTheorems.
Context {Lb : Labels} {L : Library}.

(** C1, as the code has it.  For a stored table with unique labels,
    [update_kpis] returns exactly four entries.  Entry [i] is, for the
    [i]-th numeric column in frame order, the text of its label, [" Avg: "]
    and the float that [Series.mean()] returns shown with two decimals; that
    float is a binary64 sum of the non-missing cells divided by their
    number, so it is rounded and may be [inf] or [nan].  Entry [i] is the
    ["-"] placeholder when the table has no more than [i] numeric
    columns. *)
Theorem update_kpis_four_entries (j : json) :
  unique_labels (read_json j) ->
  exists v0 v1 v2 v3,
    update_kpis (Some j) = Return (v0, v1, v2, v3) /\
    forall i, (i < 4)%nat ->
      match nth_error (filter is_number (columns (read_json j))) i with
      | Some c =>
          exists (m : float) (text : string),
            series_mean c = Return m /\
            is_mean (numeric_values c) m /\
            shows_two_decimals m text /\
            nth i [v0; v1; v2; v3] "" = label_str (name c) ++ " Avg: " ++ text
      | None => nth i [v0; v1; v2; v3] "" = "-"
      end.
Proof.
  intros Hu. do 4 eexists. split; [apply (update_kpis_value j Hu)|].
  intros i Hi.
  assert (He : nth i [kpi_entry (read_json j) 0; kpi_entry (read_json j) 1;
                      kpi_entry (read_json j) 2; kpi_entry (read_json j) 3] ""
               = kpi_entry (read_json j) i)
    by (destruct i as [|[|[|[|i]]]]; try reflexivity; lia).
  rewrite He. unfold kpi_entry.
  destruct (nth_error (filter is_number (columns (read_json j))) i) as [c|] eqn:E;
    [|reflexivity].
  destruct (numeric_column_facts _ _ _ E) as [_ Hnum].
  destruct (series_mean_numeric c Hnum) as (m & Hm & Hmean).
  exists m, (format_2f m). rewrite Hm.
  repeat split; [exact Hmean|apply format_2f_shows].
Qed.


End KpiTheorems.

(** ** Selection of the columns in [update_charts] *)

Section SelectionProperties.
Context {Lb : Labels}.

Lemma label_eqb_refl (l : label) : label_eqb l l = true.
Proof. now apply label_eqb_eq. Qed.

Lemma is_in_In s ls : is_in (Some s) ls = true <-> In s ls.
Proof.
  simpl. rewrite existsb_exists. split.
  - intros (x & Hx & E). apply label_eqb_eq in E. now subst.
  - intros H. exists s. split; [exact H|apply label_eqb_refl].
Qed.

Lemma default_col1_In numeric_cols col1 p :
  default_col1 numeric_cols col1 = Some p -> In p numeric_cols.
Proof.
  unfold default_col1.
  destruct (negb (truthy col1) || negb (is_in col1 numeric_cols)) eqn:E.
  - destruct (0 <? List.length numeric_cols)%nat; [|discriminate].
    apply nth_error_In.
  - intros ->. apply orb_false_elim in E. destruct E as [_ E].
    apply negb_false_iff in E. now apply is_in_In.
Qed.

(** What the two [if]s compute, in one line each: an unusable selection is
    replaced by the first (second) numeric label, if there is one. *)
Lemma default_col1_nth numeric_cols col1 :
  default_col1 numeric_cols col1
  = if negb (truthy col1) || negb (is_in col1 numeric_cols)
    then nth_error numeric_cols 0 else col1.
Proof.
  unfold default_col1.
  destruct (negb (truthy col1) || negb (is_in col1 numeric_cols));
    [|reflexivity].
  destruct numeric_cols; reflexivity.
Qed.

Lemma default_col2_nth numeric_cols col2 :
  default_col2 numeric_cols col2
  = if negb (truthy col2) || negb (is_in col2 numeric_cols)
    then nth_error numeric_cols 1 else col2.
Proof.
  unfold default_col2.
  destruct (negb (truthy col2) || negb (is_in col2 numeric_cols));
    [|reflexivity].
  destruct numeric_cols as [|a [|b r]]; reflexivity.
Qed.

Lemma default_col1_none numeric_cols col1 :
  default_col1 numeric_cols col1 = None <-> numeric_cols = [].
Proof.
  rewrite default_col1_nth. split.
  - destruct (negb (truthy col1) || negb (is_in col1 numeric_cols)) eqn:E.
    + destruct numeric_cols; [reflexivity|discriminate].
    + intros ->. discriminate.
  - intros ->. replace (is_in col1 []) with false by (now destruct col1).
    now rewrite orb_true_r.
Qed.

(** A selection the callback keeps is a numeric label that is true. *)
Lemma usable_is_true numeric_cols v :
  negb (truthy v) || negb (is_in v numeric_cols) = false ->
  exists l, v = Some l /\ label_truthy l = true /\ In l numeric_cols.
Proof.
  intros H. apply orb_false_elim in H. destruct H as [Ht Hi].
  apply negb_false_iff in Ht, Hi.
  destruct v as [l|]; [|discriminate].
  exists l. split; [reflexivity|]. split; [exact Ht|now apply is_in_In].
Qed.

End SelectionProperties.

Lemma nth_error_firstn_lt {A} (l : list A) n i :
  (i < n)%nat -> nth_error (firstn n l) i = nth_error l i.
Proof.
  revert l i. induction n as [|n IH]; intros l i Hi; [lia|].
  destruct l as [|x l]; [now destruct i|].
  destruct i as [|i]; [reflexivity|]. simpl. apply IH. lia.
Qed.

(** ** The figures of [update_charts] *)

Section ChartProperties.
Context {Lb : Labels} {L : Library}.

Lemma px_returns f g : px f = Return g -> g = f.
Proof. unfold px. destruct (px_error f); [discriminate|]. now intros [= <-]. Qed.

Lemma pie_figure_returns df col1 f :
  pie_figure df col1 = Return f ->
  exists df_pie,
    f = PxPie df_pie col1 (label_of_string "Count")
              ("Pie Chart of " ++ label_str col1).
Proof.
  unfold pie_figure. intros H.
  destruct (getitem df col1) as [c|]; [|discriminate]. cbn [obind] in H.
  destruct (value_counts_reset_index c) as [d|]; [|discriminate].
  cbn [obind] in H.
  destruct (set_columns d [col1; label_of_string "Count"]) as [d'|];
    [|discriminate].
  cbn [obind] in H. apply px_returns in H. now exists d'.
Qed.

Lemma scatter_figure_returns df col1 col2 f :
  scatter_figure df col1 col2 = Return f ->
  f = match col2 with
      | Some s =>
          if label_truthy s then
            PxScatter df col1 s
                      ("Scatter: " ++ label_str col1 ++ " vs " ++ label_str s)
          else scatter_placeholder
      | None => scatter_placeholder
      end.
Proof.
  unfold scatter_figure, scatter_placeholder. intros H.
  destruct col2 as [s|]; [|now injection H as <-].
  destruct (label_truthy s); [now apply px_returns in H|now injection H as <-].
Qed.

Lemma heatmap_figure_returns df numeric_cols f :
  heatmap_figure df numeric_cols = Return f ->
  if (2 <=? List.length numeric_cols)%nat then
    exists m, corr (getitems df numeric_cols) = Return m /\
              f = PxImshow m "Correlation Heatmap"
  else f = heatmap_placeholder.
Proof.
  unfold heatmap_figure, heatmap_placeholder. intros H.
  destruct (2 <=? List.length numeric_cols)%nat; [|now injection H as <-].
  destruct (corr (getitems df numeric_cols)) as [m|]; [|discriminate].
  cbn [obind] in H. apply px_returns in H. now exists m.
Qed.

(** The five figures of a run of blocks 1 to 5 that returns. *)
Lemma draw_charts_returns df numeric_cols col1 col2 f1 f2 f3 f4 f5 :
  draw_charts df numeric_cols col1 col2 = Return (f1, f2, f3, f4, f5) ->
  f1 = PxHistogram df col1 20 ("Histogram of " ++ label_str col1) /\
  pie_figure df col1 = Return f2 /\
  f3 = PxLine df col1 ("Line Chart of " ++ label_str col1 ++ " over Index") /\
  scatter_figure df col1 col2 = Return f4 /\
  heatmap_figure df numeric_cols = Return f5.
Proof.
  unfold draw_charts. intros H.
  destruct (px (PxHistogram df col1 20 ("Histogram of " ++ label_str col1)))
    as [g1|] eqn:E1; [|discriminate].
  cbn [obind] in H.
  destruct (pie_figure df col1) as [g2|] eqn:E2; [|discriminate].
  cbn [obind] in H.
  destruct (px (PxLine df col1 ("Line Chart of " ++ label_str col1 ++ " over Index")))
    as [g3|] eqn:E3; [|discriminate].
  cbn [obind] in H.
  destruct (scatter_figure df col1 col2) as [g4|] eqn:E4; [|discriminate].
  cbn [obind] in H.
  destruct (heatmap_figure df numeric_cols) as [g5|] eqn:E5; [|discriminate].
  cbn [obind] in H. injection H as <- <- <- <- <-.
  apply px_returns in E1, E3. now subst.
Qed.

(** A run of [update_charts] on a stored table is a run of blocks 1 to 5
    on the columns the two [if]s decide, or the five empty figures. *)
Lemma update_charts_draws (j : json) (col1 col2 : option label) :
  update_charts (Some j) col1 col2
  = match default_col1 (numeric_columns (read_json j)) col1 with
    | Some p =>
        draw_charts (read_json j) (numeric_columns (read_json j)) p
                    (default_col2 (numeric_columns (read_json j)) col2)
    | None => Return (empty_fig, empty_fig, empty_fig, empty_fig, empty_fig)
    end.
Proof. reflexivity. Qed.



(** The run of blocks 1 to 5 returns whenever the library calls of the
    pie chart and of the correlation return and plotly accepts the
    figures. *)
Lemma draw_charts_total df numeric_cols col1 col2 c counts :
  (forall f, px_error f = None) ->
  getitem df col1 = Return c ->
  value_counts_reset_index c = Return counts ->
  List.length (columns counts) = 2%nat ->
  (exists m, corr (getitems df numeric_cols) = Return m) ->
  exists f1 f2 f3 f4 f5,
    draw_charts df numeric_cols col1 col2 = Return (f1, f2, f3, f4, f5).
Proof.
  intros Hpx Hc Hv Hlen (m & Hm).
  assert (Hp : forall f, px f = Return f)
    by (intros f; unfold px; now rewrite Hpx).
  unfold draw_charts, pie_figure, scatter_figure, heatmap_figure.
  rewrite !Hp, Hc. cbn [obind]. rewrite Hv. cbn [obind].
  unfold set_columns. cbn [List.length].
  replace (List.length (columns counts) =? 2)%nat with true
    by (symmetry; now apply Nat.eqb_eq).
  cbn [obind]. rewrite Hp. cbn [obind]. rewrite Hm.
  destruct col2 as [s|]; [destruct (label_truthy s)|];
    destruct (2 <=? List.length numeric_cols)%nat; cbn [obind];
    rewrite ?Hp; cbn [obind]; do 5 eexists; reflexivity.
Qed.

End ChartProperties.

(** ** Uploads *)

Section UploadProperties.
Context {Lb : Labels} {L : Library}.

Lemma lower_app a b : lower (a ++ b) = lower a ++ lower b.
Proof. induction a as [|c a IH]; simpl; [reflexivity|now rewrite IH]. Qed.

Lemma contains_app_r sub a b : contains sub b = true -> contains sub (a ++ b) = true.
Proof.
  intros H. induction a as [|c a IH]; simpl; [exact H|].
  rewrite IH. apply orb_true_r.
Qed.

(** A name with the extension [.csv], in any case, passes the check. *)
Lemma csv_extension_passes stem ext :
  lower ext = ".csv" -> contains "csv" (lower (stem ++ ext)) = true.
Proof.
  intros H. rewrite lower_app, H. apply contains_app_r. reflexivity.
Qed.

(** The alert of an upload that was read. *)
Lemma store_csv_read contents filename content_type content_string decoded
    text df :
  contains "csv" (lower filename) = true ->
  split_on "," contents = [content_type; content_string] ->
  b64decode content_string = Return decoded ->
  decode_utf8 decoded = Return text ->
  read_csv text = Return df ->
  store_csv (Some contents) (Some filename)
  = if df_empty df then
      ([Call_b64decode; Call_decode_utf8; Call_read_csv],
       Return (None, Alert "Uploaded CSV is empty." "warning"))
    else
      ([Call_b64decode; Call_decode_utf8; Call_read_csv; Call_to_json],
       Return (Some (to_json df), Alert "File uploaded successfully!" "success")).
Proof.
  intros Hn Hs Hb Hd Hr. unfold store_csv. rewrite Hn, Hs. cbn [negb].
  unfold call, bind, try_except, ret. rewrite Hb, Hd, Hr.
  destruct (df_empty df); reflexivity.
Qed.

(** What a refused upload returns. *)
Lemma store_csv_error contents filename alert :
  ingest_error contents filename alert ->
  snd (store_csv (Some contents) (Some filename)) = Return (None, alert).
Proof.
  intros H. destruct H as [Hn | ct cs decoded e Hn Hs Hb He
                              | ct cs decoded text df Hn Hs Hb Hd Hr Hdf].
  - unfold store_csv. now rewrite Hn.
  - unfold store_csv. rewrite Hn, Hs. cbn [negb].
    unfold call, bind, try_except, ret. rewrite Hb.
    destruct He as [He | (text & Hd & Hr)].
    + now rewrite He.
    + now rewrite Hd, Hr.
  - rewrite (store_csv_read _ _ _ _ _ _ _ Hn Hs Hb Hd Hr), Hdf. reflexivity.
Qed.

(** C7, as the code has it.  The check is for the letters [csv] anywhere
    in the name, in any case, not for the extension.  A name in which they
    do not occur is refused with the extension alert before any library
    call: nothing is decoded or read.  For a name in which they occur,
    which every name ending in [.csv] is, no run returns that alert. *)
Theorem store_csv_extension_check (contents filename : string) :
  if contains "csv" (lower filename) then
    forall calls data status,
      store_csv (Some contents) (Some filename) = (calls, Return (data, status)) ->
      status <> Alert "Please upload a .csv file." "danger"
  else
    store_csv (Some contents) (Some filename)
    = ([], Return (None, Alert "Please upload a .csv file." "danger")).
Proof.
  unfold store_csv.
  destruct (contains "csv" (lower filename)); cbn [negb]; [|reflexivity].
  intros calls data status H.
  destruct (split_on "," contents) as [|ct [|cs [|x r]]]; try discriminate.
  unfold call, bind, try_except, ret in H.
  destruct (b64decode cs) as [decoded|e]; [|discriminate].
  destruct (decode_utf8 decoded) as [text|e].
  - destruct (read_csv text) as [df|e].
    + destruct (df_empty df); inversion H; discriminate.
    + inversion H. discriminate.
  - inversion H. discriminate.
Qed.

(** An upload whose callback returns: the store and the status are
    written, then the three readers of the store run. *)
Lemma step_upload_return p contents filename data status :
  snd (store_csv (Some contents) (Some filename)) = Return (data, status) ->
  step p (Upload contents filename)
  = {| upload_contents := Some contents;
       upload_filename := Some filename;
       stored_data := data;
       upload_status := status;
       dropdown_options := populate_numeric_dropdowns data;
       dropdown1_value := dropdown1_value p;
       dropdown2_value := dropdown2_value p;
       kpis := match update_kpis data with
               | Return r => r
               | Raise _ => kpis p
               end;
       charts := match update_charts data (dropdown1_value p) (dropdown2_value p) with
                 | Return r => r
                 | Raise _ => charts p
                 end |}.
Proof.
  intros H. unfold step.
  cbn -[store_csv update_kpis update_charts populate_numeric_dropdowns].
  rewrite H.
  cbn -[store_csv update_kpis update_charts populate_numeric_dropdowns].
  destruct (update_kpis data) as [r|e];
    cbn -[store_csv update_kpis update_charts populate_numeric_dropdowns];
    destruct (update_charts data (dropdown1_value p) (dropdown2_value p));
    reflexivity.
Qed.

(** An upload whose callback raises writes nothing. *)
Lemma step_upload_raise p contents filename e :
  snd (store_csv (Some contents) (Some filename)) = Raise e ->
  step p (Upload contents filename) = set_upload contents filename p.
Proof.
  intros H. unfold step.
  cbn -[store_csv update_kpis update_charts populate_numeric_dropdowns].
  rewrite H. reflexivity.
Qed.

End UploadProperties.

(** ** Events on the page *)

Section PageProperties.
Context {Lb : Labels} {L : Library}.

(** The initial page is what one run of every callback leaves, as Dash
    does when the page loads. *)
Lemma initial_page_loaded :
  run_callbacks callbacks
    [Upload_contents; Stored_data; Dropdown1_value; Dropdown2_value]
    initial_page
  = initial_page.
Proof. reflexivity. Qed.

(** A change of the first dropdown runs [update_charts] and nothing else. *)
Lemma step_select_primary p v :
  step p (Select_primary v)
  = match update_charts (stored_data p) v (dropdown2_value p) with
    | Return r =>
        {| upload_contents := upload_contents p;
           upload_filename := upload_filename p;
           stored_data := stored_data p;
           upload_status := upload_status p;
           dropdown_options := dropdown_options p;
           dropdown1_value := v;
           dropdown2_value := dropdown2_value p;
           kpis := kpis p;
           charts := r |}
    | Raise _ => set_dropdown1 v p
    end.
Proof.
  unfold step. cbn -[update_charts].
  destruct (update_charts (stored_data p) v (dropdown2_value p)); reflexivity.
Qed.

Lemma step_select_secondary p v :
  step p (Select_secondary v)
  = match update_charts (stored_data p) (dropdown1_value p) v with
    | Return r =>
        {| upload_contents := upload_contents p;
           upload_filename := upload_filename p;
           stored_data := stored_data p;
           upload_status := upload_status p;
           dropdown_options := dropdown_options p;
           dropdown1_value := dropdown1_value p;
           dropdown2_value := v;
           kpis := kpis p;
           charts := r |}
    | Raise _ => set_dropdown2 v p
    end.
Proof.
  unfold step. cbn -[update_charts].
  destruct (update_charts (stored_data p) (dropdown1_value p) v); reflexivity.
Qed.

(** C4.  A change of either dropdown leaves the store, the KPI cards and
    the dropdown options (the numeric columns) as they were; the five
    figures are those [update_charts] computes from the stored table and
    the new selection. *)
Theorem selection_change_frame (p : page) (v : option label) :
  let after1 := step p (Select_primary v) in
  let after2 := step p (Select_secondary v) in
  (stored_data after1 = stored_data p /\
   kpis after1 = kpis p /\
   dropdown_options after1 = dropdown_options p /\
   update_kpis (stored_data after1) = update_kpis (stored_data p) /\
   populate_numeric_dropdowns (stored_data after1)
   = populate_numeric_dropdowns (stored_data p) /\
   charts after1
   = match update_charts (stored_data p) v (dropdown2_value p) with
     | Return figs => figs
     | Raise _ => charts p
     end) /\
  (stored_data after2 = stored_data p /\
   kpis after2 = kpis p /\
   dropdown_options after2 = dropdown_options p /\
   update_kpis (stored_data after2) = update_kpis (stored_data p) /\
   populate_numeric_dropdowns (stored_data after2)
   = populate_numeric_dropdowns (stored_data p) /\
   charts after2
   = match update_charts (stored_data p) (dropdown1_value p) v with
     | Return figs => figs
     | Raise _ => charts p
     end).
Proof.
  cbv zeta. rewrite step_select_primary, step_select_secondary. split.
  - destruct (update_charts (stored_data p) v (dropdown2_value p));
      repeat split; reflexivity.
  - destruct (update_charts (stored_data p) (dropdown1_value p) v);
      repeat split; reflexivity.
Qed.

Lemma ingest_error_is_error contents filename alert :
  ingest_error contents filename alert -> is_error alert.
Proof. intros H. destruct H; simpl; discriminate. Qed.

(** C5.  An upload refused for its name, for a failure to decode or read
    it, or for an empty table empties the store and shows the alert of the
    refusal; the dropdown options, the KPI cards and the figures are those
    of the empty store, whatever table was loaded before. *)
Theorem refused_upload_clears_store (p : page) (contents filename : string)
    (alert : element) :
  ingest_error contents filename alert ->
  let after := step p (Upload contents filename) in
  stored_data after = None /\
  upload_status after = alert /\
  is_error alert /\
  dropdown_options after = ([], []) /\
  kpis after = ("-", "-", "-", "-") /\
  charts after = (empty_fig, empty_fig, empty_fig, empty_fig, empty_fig).
Proof.
  intros H after. subst after.
  rewrite (step_upload_return p _ _ _ _ (store_csv_error _ _ _ H)).
  cbn. repeat split; try reflexivity. now apply ingest_error_is_error in H.
Qed.

(** C8.  An upload that is read into a frame with zero rows is refused
    with the empty-table alert, and the store is empty after it. *)
Theorem empty_table_upload_refused (p : page) (contents filename : string)
    (content_type content_string : string) (decoded : list Byte.byte)
    (text : string) (df : DataFrame) :
  contains "csv" (lower filename) = true ->
  split_on "," contents = [content_type; content_string] ->
  b64decode content_string = Return decoded ->
  decode_utf8 decoded = Return text ->
  read_csv text = Return df ->
  index_len df = 0%nat ->
  store_csv (Some contents) (Some filename)
  = ([Call_b64decode; Call_decode_utf8; Call_read_csv],
     Return (None, Alert "Uploaded CSV is empty." "warning")) /\
  stored_data (step p (Upload contents filename)) = None /\
  upload_status (step p (Upload contents filename))
  = Alert "Uploaded CSV is empty." "warning".
Proof.
  intros Hn Hs Hb Hd Hr Hz.
  assert (He : df_empty df = true) by (unfold df_empty; now rewrite Hz).
  pose proof (store_csv_read _ _ _ _ _ _ _ Hn Hs Hb Hd Hr) as Hrun.
  rewrite He in Hrun. split; [exact Hrun|].
  rewrite (step_upload_return p contents filename None
             (Alert "Uploaded CSV is empty." "warning"))
    by now rewrite Hrun.
  split; reflexivity.
Qed.

(** What [store_csv] returns: an empty store with an alert of refusal (or
    the empty text, without contents), or a table with the alert of
    success. *)
Lemma store_csv_returns contents filename calls data status :
  store_csv contents filename = (calls, Return (data, status)) ->
  (data = None /\ status <> Alert "File uploaded successfully!" "success") \/
  (exists j, data = Some j /\ ~ is_error status).
Proof.
  unfold store_csv. intros H.
  destruct contents as [contents|]; [|inversion H; left; split; [reflexivity|discriminate]].
  destruct filename as [filename|]; [|discriminate].
  destruct (contains "csv" (lower filename)); cbn [negb] in H;
    [|inversion H; left; split; [reflexivity|discriminate]].
  destruct (split_on "," contents) as [|ct [|cs [|x r]]]; try discriminate.
  unfold call, bind, try_except, ret in H.
  destruct (b64decode cs) as [decoded|e]; [|discriminate].
  destruct (decode_utf8 decoded) as [text|e].
  - destruct (read_csv text) as [df|e].
    + destruct (df_empty df); inversion H.
      * left. split; [reflexivity|discriminate].
      * right. eexists. split; [reflexivity|]. simpl. congruence.
    + inversion H. left. split; [reflexivity|discriminate].
  - inversion H. left. split; [reflexivity|discriminate].
Qed.

(** On every page the events lead to, a status that shows a refusal comes
    with an empty store. *)
Lemma error_status_empty_store p :
  reachable p -> is_error (upload_status p) -> stored_data p = None.
Proof.
  induction 1 as [|p e Hp IH]; [reflexivity|].
  destruct e as [contents filename|v|v].
  - destruct (store_csv (Some contents) (Some filename)) as [calls [[data status]|err]] eqn:E.
    + rewrite (step_upload_return p contents filename data status)
        by now rewrite E.
      cbn. intros Herr.
      destruct (store_csv_returns _ _ _ _ _ E) as [[-> _]|(j & _ & Hok)];
        [reflexivity|contradiction].
    + rewrite (step_upload_raise p contents filename err) by now rewrite E.
      exact IH.
  - rewrite step_select_primary.
    destruct (update_charts (stored_data p) v (dropdown2_value p)); exact IH.
  - rewrite step_select_secondary.
    destruct (update_charts (stored_data p) (dropdown1_value p) v); exact IH.
Qed.

End PageProperties.


(** * Further properties of the callbacks *)

(** ** [store_csv]: what is refused, what raises, what is called *)

Lemma split_on_length sep s :
  List.length (split_on sep s) = S (count_char sep s).
Proof.
  induction s as [|a s IH]; [reflexivity|].
  cbn [split_on count_char].
  destruct (Ascii.eqb a sep); cbn [List.length]; [now rewrite IH|].
  destruct (split_on sep s) as [|h t]; [discriminate IH|].
  cbn [List.length] in *. exact IH.
Qed.

Lemma contains_csv_inside a mid b :
  lower mid = "csv" -> contains "csv" (lower (a ++ mid ++ b)) = true.
Proof.
  intros H. rewrite !lower_app, H. apply contains_app_r.
  destruct (lower b); reflexivity.
Qed.

Section StoreCsvProperties.
Context {Lb : Labels} {L : Library}.

(** With a name that passes the check, no run returns the alert of the
    check. *)
Lemma store_csv_passed_name contents filename :
  contains "csv" (lower filename) = true ->
  snd (store_csv (Some contents) (Some filename)) <> Return (None, alert_bad_name).
Proof.
  intros Hn. unfold store_csv, alert_bad_name. rewrite Hn. cbn [negb].
  destruct (split_on "," contents) as [|ct [|cs [|x r]]]; try discriminate.
  unfold call, bind, try_except, ret.
  destruct (b64decode cs) as [decoded|e]; [|discriminate].
  destruct (decode_utf8 decoded) as [text|e].
  - destruct (read_csv text) as [df|e]; [|discriminate].
    destruct (df_empty df); discriminate.
  - discriminate.
Qed.

(** X1.  The name check looks for the letters [csv], in any case, anywhere
    in the name: a name that holds them is never refused for its name,
    whatever its extension. *)
Theorem store_csv_name_check_is_substring (contents a mid b : string) :
  lower mid = "csv" ->
  snd (store_csv (Some contents) (Some (a ++ mid ++ b)))
  <> Return (None, alert_bad_name).
Proof.
  intros H. apply store_csv_passed_name. now apply contains_csv_inside.
Qed.

(** X2.  Contents that do not hold exactly one comma make [store_csv]
    raise at the unpacking of [split], before any library call; the
    callback then writes nothing, and the page keeps the store, the status,
    the options, the KPI cards and the figures it had. *)
Theorem upload_without_single_comma_raises (p : page) (contents filename : string) :
  contains "csv" (lower filename) = true ->
  count_char "," contents <> 1%nat ->
  store_csv (Some contents) (Some filename) = ([], Raise "ValueError") /\
  let after := step p (Upload contents filename) in
  stored_data after = stored_data p /\
  upload_status after = upload_status p /\
  dropdown_options after = dropdown_options p /\
  kpis after = kpis p /\
  charts after = charts p.
Proof.
  intros Hn Hc.
  assert (Hrun : store_csv (Some contents) (Some filename) = ([], Raise "ValueError")).
  { unfold store_csv. rewrite Hn. cbn [negb].
    pose proof (split_on_length "," contents) as Hlen.
    destruct (split_on "," contents) as [|ct [|cs [|x r]]]; try reflexivity.
    cbn [List.length] in Hlen. congruence. }
  split; [exact Hrun|].
  rewrite (step_upload_raise p contents filename "ValueError") by now rewrite Hrun.
  repeat split.
Qed.

(** X3.  An exception of [base64.b64decode] is not caught: the callback
    raises it after that one call, and the page keeps what it showed.  *)
Theorem upload_bad_base64_raises (p : page) (contents filename : string)
    (content_type content_string e : string) :
  contains "csv" (lower filename) = true ->
  split_on "," contents = [content_type; content_string] ->
  b64decode content_string = Raise e ->
  store_csv (Some contents) (Some filename) = ([Call_b64decode], Raise e) /\
  let after := step p (Upload contents filename) in
  stored_data after = stored_data p /\
  upload_status after = upload_status p /\
  dropdown_options after = dropdown_options p /\
  kpis after = kpis p /\
  charts after = charts p.
Proof.
  intros Hn Hs Hb.
  assert (Hrun : store_csv (Some contents) (Some filename)
                 = ([Call_b64decode], Raise e)).
  { unfold store_csv. rewrite Hn, Hs. cbn [negb].
    unfold call, bind. now rewrite Hb. }
  split; [exact Hrun|].
  rewrite (step_upload_raise p contents filename e) by now rewrite Hrun.
  repeat split.
Qed.

(** X4.  Whatever the upload, the library calls of [store_csv] are a
    prefix of [b64decode], [decode], [read_csv], [to_json]: nothing is
    read before it is decoded, and [to_json] is called exactly in the runs
    that return a table for the store. *)
Theorem store_csv_call_order (contents filename : option string) :
  (exists n, fst (store_csv contents filename) = firstn n call_order) /\
  (In Call_to_json (fst (store_csv contents filename)) <->
   exists j status, snd (store_csv contents filename) = Return (Some j, status)).
Proof.
  assert (Hno : forall (calls : list lib_call) (r : outcome (option json * element)),
             (forall j s, r <> Return (Some j, s)) ->
             ~ In Call_to_json calls ->
             (In Call_to_json calls <-> exists j s, r = Return (Some j, s))).
  { intros calls r Hr Hc. split; [intros H; contradiction|].
    intros (j & s & H). exfalso. exact (Hr j s H). }
  unfold store_csv, call_order.
  destruct contents as [contents|];
    [|split; [now exists 0%nat|apply Hno; [discriminate|simpl; tauto]]].
  destruct filename as [filename|];
    [|split; [now exists 0%nat|apply Hno; [discriminate|simpl; tauto]]].
  destruct (contains "csv" (lower filename)); cbn [negb];
    [|split; [now exists 0%nat|apply Hno; [discriminate|simpl; tauto]]].
  destruct (split_on "," contents) as [|ct [|cs [|x r]]];
    try (split; [now exists 0%nat|apply Hno; [discriminate|simpl; tauto]]).
  unfold call, bind, try_except, ret.
  destruct (b64decode cs) as [decoded|e];
    [|split; [now exists 1%nat|apply Hno; [discriminate|simpl; intuition discriminate]]].
  destruct (decode_utf8 decoded) as [text|e];
    [|split; [now exists 2%nat|apply Hno; [discriminate|simpl; intuition discriminate]]].
  destruct (read_csv text) as [df|e];
    [|split; [now exists 3%nat|apply Hno; [discriminate|simpl; intuition discriminate]]].
  destruct (df_empty df).
  - split; [now exists 3%nat|apply Hno; [discriminate|simpl; intuition discriminate]].
  - split; [now exists 4%nat|]. cbn. split; [now eauto|]. intros _. tauto.
Qed.

End StoreCsvProperties.

(** ** The page under uploads and selections *)

Section PageInvariants.
Context {Lb : Labels} {L : Library}.

(** A table returned for the store is what [to_json] made of a frame that
    is not empty, and it comes with the alert of success. *)
Lemma store_csv_stores contents filename calls j status :
  store_csv contents filename = (calls, Return (Some j, status)) ->
  (exists df, j = to_json df /\ df_empty df = false) /\ status = alert_success.
Proof.
  unfold store_csv, alert_success. intros H.
  destruct contents as [contents|]; [|discriminate].
  destruct filename as [filename|]; [|discriminate].
  destruct (contains "csv" (lower filename)); cbn [negb] in H; [|discriminate].
  destruct (split_on "," contents) as [|ct [|cs [|x r]]]; try discriminate.
  unfold call, bind, try_except, ret in H.
  destruct (b64decode cs) as [decoded|e]; [|discriminate].
  destruct (decode_utf8 decoded) as [text|e]; [|discriminate].
  destruct (read_csv text) as [df|e]; [|discriminate].
  destruct (df_empty df) eqn:E; [discriminate|].
  inversion H; subst. split; [|reflexivity]. now exists df.
Qed.

(** X5.  An upload that is decoded and read into a frame that is not empty
    stores [to_json] of the frame with the alert of success, after the four
    library calls; the dropdowns then offer the numeric columns of the
    stored table. *)
Theorem upload_read_is_stored (p : page) (contents filename : string)
    (content_type content_string : string) (decoded : list Byte.byte)
    (text : string) (df : DataFrame) :
  contains "csv" (lower filename) = true ->
  split_on "," contents = [content_type; content_string] ->
  b64decode content_string = Return decoded ->
  decode_utf8 decoded = Return text ->
  read_csv text = Return df ->
  df_empty df = false ->
  store_csv (Some contents) (Some filename)
  = (call_order, Return (Some (to_json df), alert_success)) /\
  let after := step p (Upload contents filename) in
  stored_data after = Some (to_json df) /\
  upload_status after = alert_success /\
  map value (fst (dropdown_options after))
  = numeric_columns (read_json (to_json df)) /\
  snd (dropdown_options after) = fst (dropdown_options after).
Proof.
  intros Hn Hs Hb Hd Hr He.
  pose proof (store_csv_read _ _ _ _ _ _ _ Hn Hs Hb Hd Hr) as Hrun.
  rewrite He in Hrun. split; [exact Hrun|].
  rewrite (step_upload_return p contents filename (Some (to_json df))
             alert_success) by now rewrite Hrun.
  cbn. repeat split. rewrite map_map. cbn. apply map_id.
Qed.

(** X7.  On every page the events lead to, the store is empty or holds
    [to_json] of a frame that is not empty, and then the status is the
    alert of success. *)
Theorem stored_table_invariant (p : page) :
  reachable p ->
  match stored_data p with
  | None => True
  | Some j =>
      (exists df, j = to_json df /\ df_empty df = false) /\
      upload_status p = alert_success
  end.
Proof.
  induction 1 as [|p e Hp IH]; [exact I|].
  destruct e as [contents filename|v|v].
  - destruct (store_csv (Some contents) (Some filename))
      as [calls [[data status]|err]] eqn:E.
    + rewrite (step_upload_return p contents filename data status)
        by now rewrite E.
      cbn. destruct data as [j|]; [|exact I].
      exact (store_csv_stores _ _ _ _ _ E).
    + rewrite (step_upload_raise p contents filename err) by now rewrite E.
      exact IH.
  - rewrite step_select_primary.
    destruct (update_charts (stored_data p) v (dropdown2_value p)); exact IH.
  - rewrite step_select_secondary.
    destruct (update_charts (stored_data p) (dropdown1_value p) v); exact IH.
Qed.

(** X8.  On every page the events lead to, what is shown is what the
    callbacks compute from the store and the selection of that page: the
    dropdown options are those of the stored table, and the KPI cards and
    the figures are the results of [update_kpis] and [update_charts]
    whenever these return. *)
Theorem page_shows_current_store (p : page) :
  reachable p ->
  dropdown_options p = populate_numeric_dropdowns (stored_data p) /\
  (forall r, update_kpis (stored_data p) = Return r -> kpis p = r) /\
  (forall r,
      update_charts (stored_data p) (dropdown1_value p) (dropdown2_value p)
      = Return r ->
      charts p = r).
Proof.
  induction 1 as [|p e Hp IH].
  - split; [reflexivity|].
    split; intros r Hr; cbn in Hr; injection Hr as <-; reflexivity.
  - destruct IH as (IHo & IHk & IHc).
    destruct e as [contents filename|v|v].
    + destruct (store_csv (Some contents) (Some filename))
        as [calls [[data status]|err]] eqn:E.
      * rewrite (step_upload_return p contents filename data status)
          by now rewrite E.
        cbn [dropdown_options stored_data kpis charts dropdown1_value
             dropdown2_value].
        split; [reflexivity|].
        split; intros r Hr; rewrite Hr; reflexivity.
      * rewrite (step_upload_raise p contents filename err) by now rewrite E.
        split; [exact IHo|]. split; [exact IHk|exact IHc].
    + rewrite step_select_primary.
      destruct (update_charts (stored_data p) v (dropdown2_value p))
        as [figs|err] eqn:E;
        cbn [dropdown_options stored_data kpis charts dropdown1_value
             dropdown2_value set_dropdown1].
      * split; [exact IHo|]. split; [exact IHk|]. intros r Hr. congruence.
      * split; [exact IHo|]. split; [exact IHk|]. intros r Hr. congruence.
    + rewrite step_select_secondary.
      destruct (update_charts (stored_data p) (dropdown1_value p) v)
        as [figs|err] eqn:E;
        cbn [dropdown_options stored_data kpis charts dropdown1_value
             dropdown2_value set_dropdown2].
      * split; [exact IHo|]. split; [exact IHk|]. intros r Hr. congruence.
      * split; [exact IHo|]. split; [exact IHk|]. intros r Hr. congruence.
Qed.

End PageInvariants.

(** ** [update_charts], [update_kpis] and the dropdowns together *)

Section ChartsAndCards.
Context {Lb : Labels} {L : Library}.

(** X9.  What the dropdowns offer is accepted as it is, for a label that
    is true in Python: when [update_charts] returns, an option chosen in
    the first dropdown is the column of charts 1 to 3, and an option chosen
    in the second is the [y] column of the scatter plot. *)
Theorem dropdown_option_is_plotted (j : json) (o : dd_option)
    (col1 col2 : option label) :
  In o (fst (populate_numeric_dropdowns (Some j))) ->
  label_truthy (value o) = true ->
  (forall f1 f2 f3 f4 f5,
      update_charts (Some j) (Some (value o)) col2 = Return (f1, f2, f3, f4, f5) ->
      f1 = PxHistogram (read_json j) (value o) 20
                       ("Histogram of " ++ label_str (value o)) /\
      (exists df_pie,
          f2 = PxPie df_pie (value o) (label_of_string "Count")
                     ("Pie Chart of " ++ label_str (value o))) /\
      f3 = PxLine (read_json j) (value o)
                  ("Line Chart of " ++ label_str (value o) ++ " over Index")) /\
  (forall f1 f2 f3 f4 f5,
      update_charts (Some j) col1 (Some (value o)) = Return (f1, f2, f3, f4, f5) ->
      exists p,
        In p (numeric_columns (read_json j)) /\
        f4 = PxScatter (read_json j) p (value o)
                       ("Scatter: " ++ label_str p ++ " vs " ++ label_str (value o))).
Proof.
  intros Ho Ht. cbn in Ho. apply in_map_iff in Ho.
  destruct Ho as (l & <- & Hl). cbn [value] in *.
  assert (Hin : is_in (Some l) (numeric_columns (read_json j)) = true)
    by now apply is_in_In.
  split; intros f1 f2 f3 f4 f5 Hr; rewrite update_charts_draws in Hr.
  - rewrite default_col1_nth in Hr. cbn [truthy] in Hr.
    rewrite Ht, Hin in Hr. cbn [negb orb] in Hr.
    apply draw_charts_returns in Hr. destruct Hr as (H1 & H2 & H3 & _ & _).
    split; [exact H1|]. split; [now apply pie_figure_returns in H2|exact H3].
  - destruct (default_col1 (numeric_columns (read_json j)) col1) as [p|] eqn:Ep.
    + rewrite default_col2_nth in Hr. cbn [truthy] in Hr.
      rewrite Ht, Hin in Hr. cbn [negb orb] in Hr.
      apply draw_charts_returns in Hr. destruct Hr as (_ & _ & _ & H4 & _).
      apply scatter_figure_returns in H4. rewrite Ht in H4.
      exists p. split; [now apply default_col1_In in Ep|exact H4].
    + apply default_col1_none in Ep. rewrite Ep in Hl. contradiction.
Qed.

(** X10.  The heatmap does not depend on the selection, and charts 1 to 3
    do not depend on the second dropdown: two runs on the same store
    return the same heatmap, and the same charts 1 to 3 when the first
    dropdown holds the same value. *)
Theorem selection_independent_figures (j : json)
    (col1 col2 col1' col2' : option label)
    (a1 a2 a3 a4 a5 b1 b2 b3 b4 b5 : figure) :
  update_charts (Some j) col1 col2 = Return (a1, a2, a3, a4, a5) ->
  update_charts (Some j) col1' col2' = Return (b1, b2, b3, b4, b5) ->
  a5 = b5 /\ (col1 = col1' -> a1 = b1 /\ a2 = b2 /\ a3 = b3).
Proof.
  rewrite !update_charts_draws. intros Ha Hb.
  destruct (default_col1 (numeric_columns (read_json j)) col1) as [p|] eqn:Ep;
    destruct (default_col1 (numeric_columns (read_json j)) col1') as [q|] eqn:Eq.
  - apply draw_charts_returns in Ha, Hb.
    destruct Ha as (A1 & A2 & A3 & _ & A5), Hb as (B1 & B2 & B3 & _ & B5).
    split; [congruence|]. intros ->.
    rewrite Ep in Eq. injection Eq as <-. repeat split; congruence.
  - apply default_col1_none in Eq.
    apply (default_col1_none _ col1) in Eq. congruence.
  - apply default_col1_none in Ep.
    apply (default_col1_none _ col1') in Ep. congruence.
  - inversion Ha; inversion Hb; subst. split; [reflexivity|].
    intros _. repeat split.
Qed.

(** X11.  On a table with numeric columns, all with a label that is true
    in Python, chart 4 of a run that returns is its placeholder exactly
    when the table has a single numeric column and the second dropdown
    holds no numeric label. *)
Theorem scatter_placeholder_iff (j : json) (col1 col2 : option label)
    (f1 f2 f3 f4 f5 : figure) :
  numeric_columns (read_json j) <> [] ->
  (forall l, In l (numeric_columns (read_json j)) -> label_truthy l = true) ->
  update_charts (Some j) col1 col2 = Return (f1, f2, f3, f4, f5) ->
  (f4 = scatter_placeholder <->
   (List.length (numeric_columns (read_json j)) < 2)%nat /\
   negb (truthy col2) || negb (is_in col2 (numeric_columns (read_json j)))
   = true).
Proof.
  intros Hne Hlab Hrun. rewrite update_charts_draws in Hrun.
  destruct (default_col1 (numeric_columns (read_json j)) col1) as [p|] eqn:Ep;
    [|apply default_col1_none in Ep; contradiction].
  apply draw_charts_returns in Hrun. destruct Hrun as (_ & _ & _ & H4 & _).
  apply scatter_figure_returns in H4. subst f4.
  rewrite default_col2_nth. unfold scatter_placeholder.
  destruct (negb (truthy col2) || negb (is_in col2 (numeric_columns (read_json j))))
    eqn:Eu.
  - destruct (nth_error (numeric_columns (read_json j)) 1) as [s|] eqn:En.
    + assert (Hs : In s (numeric_columns (read_json j)))
        by now apply nth_error_In in En.
      assert (Hlen : (1 < List.length (numeric_columns (read_json j)))%nat)
        by (apply nth_error_Some; congruence).
      rewrite (Hlab s Hs).
      split; [discriminate|]. intros [H _]. lia.
    + apply nth_error_None in En.
      split; [intros _; split; [lia|reflexivity]|reflexivity].
  - destruct (usable_is_true _ _ Eu) as (l & -> & Ht & _). rewrite Ht.
    split; [discriminate|]. intros [_ H]. discriminate.
Qed.

(** X12.  The KPI cards read the first four numeric columns and nothing
    else: two tables whose first four numeric columns are the same get the
    same cards. *)
Theorem kpis_read_first_four (j1 j2 : json) :
  unique_labels (read_json j1) ->
  unique_labels (read_json j2) ->
  firstn 4 (filter is_number (columns (read_json j1)))
  = firstn 4 (filter is_number (columns (read_json j2))) ->
  update_kpis (Some j1) = update_kpis (Some j2).
Proof.
  intros H1 H2 H4.
  rewrite (update_kpis_value j1 H1), (update_kpis_value j2 H2).
  assert (He : forall i, (i < 4)%nat ->
                 kpi_entry (read_json j1) i = kpi_entry (read_json j2) i).
  { intros i Hi. unfold kpi_entry.
    rewrite <- (nth_error_firstn_lt (filter is_number (columns (read_json j1))) 4 i Hi).
    rewrite <- (nth_error_firstn_lt (filter is_number (columns (read_json j2))) 4 i Hi).
    now rewrite H4. }
  rewrite (He 0%nat), (He 1%nat), (He 2%nat), (He 3%nat) by lia. reflexivity.
Qed.

(** X13.  A table without a numeric column shows nothing: the dropdowns
    have no option, the four cards are ["-"], and the five figures are the
    empty figure, whatever the dropdowns hold. *)
Theorem table_without_numbers_shows_nothing (j : json)
    (col1 col2 : option label) :
  numeric_columns (read_json j) = [] ->
  populate_numeric_dropdowns (Some j) = ([], []) /\
  update_kpis (Some j) = Return ("-", "-", "-", "-") /\
  update_charts (Some j) col1 col2
  = Return (empty_fig, empty_fig, empty_fig, empty_fig, empty_fig).
Proof.
  intros H. unfold populate_numeric_dropdowns, update_kpis, update_charts.
  rewrite H. split; [reflexivity|]. split; [reflexivity|].
  assert (E : default_col1 [] col1 = None) by now apply default_col1_none.
  now rewrite E.
Qed.

(** X18.  Chart 5 of a run that returns on a table with a numeric column:
    with two numeric columns or more it is [px.imshow] of what
    [df[numeric_cols].corr()] returns, titled [Correlation Heatmap], and
    with a single numeric column it is the placeholder of the heatmap. *)
Theorem heatmap_of_numeric_columns (j : json) (col1 col2 : option label)
    (f1 f2 f3 f4 f5 : figure) :
  numeric_columns (read_json j) <> [] ->
  update_charts (Some j) col1 col2 = Return (f1, f2, f3, f4, f5) ->
  if (2 <=? List.length (numeric_columns (read_json j)))%nat then
    exists m,
      corr (getitems (read_json j) (numeric_columns (read_json j))) = Return m /\
      f5 = PxImshow m "Correlation Heatmap"
  else f5 = heatmap_placeholder.
Proof.
  intros Hne Hrun. rewrite update_charts_draws in Hrun.
  destruct (default_col1 (numeric_columns (read_json j)) col1) as [p|] eqn:Ep;
    [|apply default_col1_none in Ep; contradiction].
  apply draw_charts_returns in Hrun. destruct Hrun as (_ & _ & _ & _ & H5).
  now apply heatmap_figure_returns in H5.
Qed.

End ChartsAndCards.

(** ** Sequences of events *)

Section EventSequences.
Context {Lb : Labels} {L : Library}.

(** X16.  The same upload made twice in a row leaves the page as the
    first one left it. *)
Theorem upload_twice_same (p : page) (contents filename : string) :
  step (step p (Upload contents filename)) (Upload contents filename)
  = step p (Upload contents filename).
Proof.
  destruct (store_csv (Some contents) (Some filename))
    as [calls [[data status]|e]] eqn:E.
  - rewrite !(step_upload_return _ contents filename data status)
      by now rewrite E.
    cbn [dropdown1_value dropdown2_value kpis charts].
    destruct (update_kpis data);
      destruct (update_charts data (dropdown1_value p) (dropdown2_value p));
      reflexivity.
  - rewrite !(step_upload_raise _ contents filename e) by now rewrite E.
    reflexivity.
Qed.

(** X17.  The two dropdowns can be changed in either order: when
    [update_charts] returns for the store and the two new values, both
    orders lead to the same page, which shows its figures. *)
Theorem selections_commute (p : page) (v w : option label) (r : figures) :
  update_charts (stored_data p) v w = Return r ->
  step (step p (Select_primary v)) (Select_secondary w)
  = step (step p (Select_secondary w)) (Select_primary v) /\
  charts (step (step p (Select_primary v)) (Select_secondary w)) = r.
Proof.
  intros Hr.
  rewrite (step_select_secondary (step p (Select_primary v))).
  rewrite (step_select_primary (step p (Select_secondary w))).
  rewrite (step_select_primary p), (step_select_secondary p).
  destruct (update_charts (stored_data p) v (dropdown2_value p));
    destruct (update_charts (stored_data p) (dropdown1_value p) w);
    cbn [stored_data dropdown1_value dropdown2_value set_dropdown1
         set_dropdown2 upload_contents upload_filename upload_status
         dropdown_options kpis charts];
    rewrite Hr; split; reflexivity.
Qed.

End EventSequences.


(** ** The theorems on concrete tables and uploads *)

Lemma unique_labels_table_abc : unique_labels table_abc.
Proof. unfold unique_labels. simpl. repeat constructor; simpl; intuition discriminate. Defined.


Lemma unique_labels_table_abc_note : unique_labels table_abc_note.
Proof. unfold unique_labels. simpl. repeat constructor; simpl; intuition discriminate. Defined.

Lemma unique_labels_table_overflow : unique_labels table_overflow.
Proof. unfold unique_labels. simpl. repeat constructor; simpl; intuition discriminate. Defined.

Lemma reachable_page_loaded : reachable page_loaded.
Proof. exact (reachable_step initial_page _ reachable_initial). Defined.

Example kpis_table_abc :
  update_kpis (Some table_abc)
  = Return ("a Avg: 3.00", "b Avg: 6.20", "c Avg: 2.25", "-").
Proof. reflexivity. Qed.

Example kpis_table_one_numeric :
  update_kpis (Some table_one_numeric) = Return ("n Avg: 3.50", "-", "-", "-").
Proof. reflexivity. Qed.

(** C1 fails on the code: the mean shown is a binary64 result, not the
    arithmetic mean of the cells.  The integer cells [2^53 + 1] have the
    mean [2^53 + 1] and the card shows [2^53]; the two finite cells
    [1.7e308] have a finite mean and the card shows [inf]. *)
Lemma update_kpis_mean_is_rounded :
  unique_labels table_overflow /\
  map data (filter is_number (columns table_overflow))
  = [Numeric [huge; huge];
     Integer [9007199254740993; 9007199254740993]%Z] /\
  PrimFloat.is_finite huge = true /\
  spec_mean_text [9007199254740993; 9007199254740993]%Z = "9007199254740993.00" /\
  update_kpis (Some table_overflow)
  = Return ("a Avg: inf", "n Avg: 9007199254740992.00", "-", "-") /\
  "n Avg: 9007199254740992.00"
  <> "n Avg: " ++ spec_mean_text [9007199254740993; 9007199254740993]%Z.
Proof.
  split; [exact unique_labels_table_overflow|].
  repeat split. discriminate.
Qed.

Lemma update_kpis_four_entries_witness :
  unique_labels table_abc /\
  exists v0 v1 v2 v3,
    update_kpis (Some table_abc) = Return (v0, v1, v2, v3) /\
    forall i, (i < 4)%nat ->
      match nth_error (filter is_number (columns table_abc)) i with
      | Some c =>
          exists (m : float) (text : string),
            series_mean c = Return m /\
            is_mean (numeric_values c) m /\
            shows_two_decimals m text /\
            nth i [v0; v1; v2; v3] "" = label_str (name c) ++ " Avg: " ++ text
      | None => nth i [v0; v1; v2; v3] "" = "-"
      end.
Proof.
  split; [exact unique_labels_table_abc|].
  exact (update_kpis_four_entries (L := Reference.library) table_abc
           unique_labels_table_abc).
Defined.



Example charts_table_one_numeric :
  update_charts (Some table_one_numeric) None None
  = Return (PxHistogram table_one_numeric (LStr "n") 20 "Histogram of n",
            PxPie {| index_len := 2;
                     columns :=
                       [ {| name := LStr "n"; data := Integer [3; 4]%Z |};
                         {| name := LStr "Count"; data := Integer [1; 1]%Z |} ] |}
                  (LStr "n") (LStr "Count") "Pie Chart of n",
            PxLine table_one_numeric (LStr "n") "Line Chart of n over Index",
            Annotated "Not enough numeric columns for Scatter Plot",
            Annotated "Not enough numeric columns for Heatmap").
Proof. reflexivity. Qed.

Example default_columns_table_abc :
  default_col1 (numeric_columns table_abc) None = Some (LStr "a") /\
  default_col2 (numeric_columns table_abc) None = Some (LStr "b") /\
  default_col1 (numeric_columns table_abc) (Some (LStr "zzz")) = Some (LStr "a") /\
  default_col2 (numeric_columns table_abc) (Some (LStr "c")) = Some (LStr "c").
Proof. repeat split. Qed.

(** The run of C2 on a table: an unset primary value and a secondary value
    that is no numeric label. *)
Example charts_table_abc_defaults :
  exists df_pie m,
    update_charts (Some table_abc) None (Some (LStr "city"))
    = Return (PxHistogram table_abc (LStr "a") 20 "Histogram of a",
              PxPie df_pie (LStr "a") (LStr "Count") "Pie Chart of a",
              PxLine table_abc (LStr "a") "Line Chart of a over Index",
              PxScatter table_abc (LStr "a") (LStr "b") "Scatter: a vs b",
              PxImshow m "Correlation Heatmap").
Proof. do 2 eexists. reflexivity. Qed.


(** A primary column labelled [Count] or [count]: the pie chart raises,
    and so does the callback. *)
Example charts_count_label_raises :
  update_charts
    (Some {| index_len := 2;
             columns := [ {| name := LStr "Count"; data := Integer [1; 2]%Z |} ] |})
    None None
  = Raise "ValueError" /\
  update_charts
    (Some {| index_len := 2;
             columns := [ {| name := LStr "count"; data := Integer [1; 2]%Z |} ] |})
    None None
  = Raise "cannot insert count, already exists".
Proof. split; reflexivity. Qed.



Example accepted_name_without_extension :
  contains "csv" (lower "csv_notes.txt") = true /\
  contains "csv" (lower "REPORT.CSV") = true /\
  contains "csv" (lower "report.xlsx") = false.
Proof. repeat split. Qed.

(** C7 fails on the code: a name that does not end in [.csv] passes the
    check when the letters occur in it, and its table is stored. *)
Lemma store_csv_accepts_other_extension :
  spec_indicates_csv "discsview.png" = false /\
  spec_indicates_csv "report.csv.exe" = false /\
  contains "csv" (lower "discsview.png") = true /\
  store_csv (Some upload_one_row) (Some "discsview.png")
  = (call_order,
     Return (Some {| index_len := 1;
                     columns := [ {| name := LStr "a"; data := Integer [1]%Z |};
                                  {| name := LStr "b"; data := Integer [2]%Z |} ] |},
             alert_success)) /\
  snd (store_csv (Some upload_one_row) (Some "report.csv.exe"))
  = snd (store_csv (Some upload_one_row) (Some "discsview.png")).
Proof. repeat split. Qed.

Example upload_header_only_run :
  store_csv (Some upload_header_only) (Some "data.csv")
  = ([Call_b64decode; Call_decode_utf8; Call_read_csv],
     Return (None, Alert "Uploaded CSV is empty." "warning")).
Proof. reflexivity. Qed.

Example upload_bad_padding_raises :
  store_csv (Some "data:text/csv;base64,YSxiCg=") (Some "data.csv")
  = ([Call_b64decode], Raise "Incorrect padding").
Proof. reflexivity. Qed.

Example page_loaded_store :
  stored_data page_loaded
  = Some {| index_len := 1;
            columns := [ {| name := LStr "a"; data := Integer [1]%Z |};
                         {| name := LStr "b"; data := Integer [2]%Z |} ] |} /\
  kpis page_loaded = ("a Avg: 1.00", "b Avg: 2.00", "-", "-").
Proof. split; reflexivity. Qed.

Lemma ingest_error_header_only :
  ingest_error upload_header_only "data.csv"
               (Alert "Uploaded CSV is empty." "warning").
Proof.
  apply (Empty_table (Lb := Reference.labels) (L := Reference.library) upload_header_only "data.csv"
           "data:text/csv;base64" "YSxiCg=="
           (list_byte_of_string (String "a" (String "," (String "b"
              (String (ascii_of_nat 10) EmptyString)))))
           (String "a" (String "," (String "b"
              (String (ascii_of_nat 10) EmptyString))))
           frame_header_only);
    reflexivity.
Defined.

Lemma refused_upload_clears_store_witness :
  ingest_error upload_header_only "data.csv"
               (Alert "Uploaded CSV is empty." "warning") /\
  stored_data page_loaded <> None /\
  let after := step page_loaded (Upload upload_header_only "data.csv") in
  stored_data after = None /\
  upload_status after = Alert "Uploaded CSV is empty." "warning" /\
  is_error (Alert "Uploaded CSV is empty." "warning") /\
  dropdown_options after = ([], []) /\
  kpis after = ("-", "-", "-", "-") /\
  charts after = (empty_fig, empty_fig, empty_fig, empty_fig, empty_fig).
Proof.
  split; [exact ingest_error_header_only|].
  split; [discriminate|].
  exact (refused_upload_clears_store (L := Reference.library) page_loaded
           upload_header_only "data.csv" _ ingest_error_header_only).
Defined.

Lemma empty_table_upload_refused_witness :
  contains "csv" (lower "data.csv") = true /\
  split_on "," upload_header_only = ["data:text/csv;base64"; "YSxiCg=="] /\
  index_len frame_header_only = 0%nat /\
  store_csv (Some upload_header_only) (Some "data.csv")
  = ([Call_b64decode; Call_decode_utf8; Call_read_csv],
     Return (None, Alert "Uploaded CSV is empty." "warning")) /\
  stored_data (step page_loaded (Upload upload_header_only "data.csv")) = None /\
  upload_status (step page_loaded (Upload upload_header_only "data.csv"))
  = Alert "Uploaded CSV is empty." "warning".
Proof.
  split; [reflexivity|]. split; [reflexivity|]. split; [reflexivity|].
  apply (empty_table_upload_refused (Lb := Reference.labels) (L := Reference.library) page_loaded
           upload_header_only "data.csv" "data:text/csv;base64" "YSxiCg=="
           (list_byte_of_string (String "a" (String "," (String "b"
              (String (ascii_of_nat 10) EmptyString)))))
           (String "a" (String "," (String "b"
              (String (ascii_of_nat 10) EmptyString))))
           frame_header_only);
    reflexivity.
Defined.

Lemma store_csv_name_check_is_substring_witness :
  lower "CSV" = "csv" /\
  snd (store_csv (Some upload_one_row) (Some ("" ++ "CSV" ++ "_notes.txt")))
  <> Return (None, alert_bad_name).
Proof.
  split; [reflexivity|].
  apply (store_csv_name_check_is_substring (L := Reference.library)
           upload_one_row "" "CSV" "_notes.txt").
  reflexivity.
Defined.

Lemma upload_without_single_comma_raises_witness :
  contains "csv" (lower "data.csv") = true /\
  count_char "," "a,b,c" <> 1%nat /\
  store_csv (Some "a,b,c") (Some "data.csv") = ([], Raise "ValueError") /\
  let after := step page_loaded (Upload "a,b,c" "data.csv") in
  stored_data after = stored_data page_loaded /\
  upload_status after = upload_status page_loaded /\
  dropdown_options after = dropdown_options page_loaded /\
  kpis after = kpis page_loaded /\
  charts after = charts page_loaded.
Proof.
  split; [reflexivity|]. split; [discriminate|].
  apply (upload_without_single_comma_raises (L := Reference.library)
           page_loaded "a,b,c" "data.csv").
  - reflexivity.
  - discriminate.
Defined.

Lemma upload_bad_base64_raises_witness :
  contains "csv" (lower "data.csv") = true /\
  split_on "," "data:text/csv;base64,YSxiCg="
  = ["data:text/csv;base64"; "YSxiCg="] /\
  Reference.decode_base64 "YSxiCg=" = Raise "Incorrect padding" /\
  store_csv (Some "data:text/csv;base64,YSxiCg=") (Some "data.csv")
  = ([Call_b64decode], Raise "Incorrect padding") /\
  let after := step page_loaded (Upload "data:text/csv;base64,YSxiCg=" "data.csv") in
  stored_data after = stored_data page_loaded /\
  upload_status after = upload_status page_loaded /\
  dropdown_options after = dropdown_options page_loaded /\
  kpis after = kpis page_loaded /\
  charts after = charts page_loaded.
Proof.
  split; [reflexivity|]. split; [reflexivity|]. split; [reflexivity|].
  apply (upload_bad_base64_raises (L := Reference.library) page_loaded
           "data:text/csv;base64,YSxiCg=" "data.csv"
           "data:text/csv;base64" "YSxiCg=" "Incorrect padding");
    reflexivity.
Defined.

Lemma upload_read_is_stored_witness :
  exists df,
    Reference.parse_csv (String "a" (String "," (String "b"
       (String (ascii_of_nat 10) (String "1" (String "," (String "2"
       (String (ascii_of_nat 10) EmptyString))))))))
    = Return df /\
    df_empty df = false /\
    store_csv (Some upload_one_row) (Some "data.csv")
    = (call_order, Return (Some df, alert_success)) /\
    let after := step (L := Reference.library) initial_page
                      (Upload upload_one_row "data.csv") in
    stored_data after = Some df /\
    upload_status after = alert_success /\
    map value (fst (dropdown_options after)) = numeric_columns (read_json df) /\
    snd (dropdown_options after) = fst (dropdown_options after).
Proof.
  eexists. split; [reflexivity|]. split; [reflexivity|].
  apply (upload_read_is_stored (L := Reference.library) initial_page
           upload_one_row "data.csv" "data:text/csv;base64" "YSxiCjEsMgo="
           (list_byte_of_string (String "a" (String "," (String "b"
              (String (ascii_of_nat 10) (String "1" (String "," (String "2"
              (String (ascii_of_nat 10) EmptyString)))))))))
           (String "a" (String "," (String "b"
              (String (ascii_of_nat 10) (String "1" (String "," (String "2"
              (String (ascii_of_nat 10) EmptyString)))))))));
    reflexivity.
Defined.

Lemma stored_table_invariant_witness :
  reachable page_loaded /\
  match stored_data page_loaded with
  | None => True
  | Some j =>
      (exists df, j = df /\ df_empty df = false) /\
      upload_status page_loaded = alert_success
  end.
Proof.
  split; [exact reachable_page_loaded|].
  exact (stored_table_invariant (L := Reference.library) page_loaded
           reachable_page_loaded).
Defined.

Lemma page_shows_current_store_witness :
  reachable page_loaded /\
  dropdown_options page_loaded
  = populate_numeric_dropdowns (stored_data page_loaded) /\
  (forall r, update_kpis (stored_data page_loaded) = Return r ->
             kpis page_loaded = r) /\
  (forall r,
      update_charts (stored_data page_loaded) (dropdown1_value page_loaded)
                    (dropdown2_value page_loaded) = Return r ->
      charts page_loaded = r).
Proof.
  split; [exact reachable_page_loaded|].
  exact (page_shows_current_store (L := Reference.library) page_loaded
           reachable_page_loaded).
Defined.

Lemma dropdown_option_is_plotted_witness :
  In option_b
     (fst (populate_numeric_dropdowns (Some table_abc))) /\
  label_truthy (LStr "b") = true /\
  (exists f2 f4 f5,
      update_charts (Some table_abc) (Some (LStr "b")) None
      = Return (PxHistogram table_abc (LStr "b") 20 "Histogram of b", f2,
                PxLine table_abc (LStr "b") "Line Chart of b over Index",
                f4, f5)) /\
  (forall f1 f2 f3 f4 f5,
      update_charts (Some table_abc) (Some (LStr "b")) None
      = Return (f1, f2, f3, f4, f5) ->
      f1 = PxHistogram table_abc (LStr "b") 20 "Histogram of b" /\
      (exists df_pie,
          f2 = PxPie df_pie (LStr "b") (LStr "Count") "Pie Chart of b") /\
      f3 = PxLine table_abc (LStr "b") "Line Chart of b over Index") /\
  (forall f1 f2 f3 f4 f5,
      update_charts (Some table_abc) None (Some (LStr "b"))
      = Return (f1, f2, f3, f4, f5) ->
      exists p,
        In p (numeric_columns table_abc) /\
        f4 = PxScatter table_abc p (LStr "b")
                       ("Scatter: " ++ label_str p ++ " vs " ++ "b")).
Proof.
  split; [right; left; reflexivity|]. split; [reflexivity|].
  split; [do 3 eexists; reflexivity|].
  apply (dropdown_option_is_plotted (L := Reference.library) table_abc
           option_b None None).
  - right. left. reflexivity.
  - reflexivity.
Defined.

Lemma selection_independent_figures_witness :
  exists a1 a2 a3 a4 a5 b1 b2 b3 b4 b5,
    update_charts (Some table_abc) (Some (LStr "a")) None
    = Return (a1, a2, a3, a4, a5) /\
    update_charts (Some table_abc) (Some (LStr "a")) (Some (LStr "c"))
    = Return (b1, b2, b3, b4, b5) /\
    a4 <> b4 /\
    a5 = b5 /\
    (Some (LStr "a") = Some (LStr "a") -> a1 = b1 /\ a2 = b2 /\ a3 = b3).
Proof.
  do 10 eexists. split; [reflexivity|]. split; [reflexivity|].
  split; [discriminate|].
  eapply (selection_independent_figures (L := Reference.library) table_abc
            (Some (LStr "a")) None (Some (LStr "a")) (Some (LStr "c")));
    reflexivity.
Defined.

Lemma scatter_placeholder_iff_witness :
  numeric_columns table_one_numeric <> [] /\
  (forall l, In l (numeric_columns table_one_numeric) -> label_truthy l = true) /\
  exists f1 f2 f3 f4 f5,
    update_charts (Some table_one_numeric) None None
    = Return (f1, f2, f3, f4, f5) /\
    (f4 = scatter_placeholder <->
     (List.length (numeric_columns table_one_numeric) < 2)%nat /\
     negb (truthy None) || negb (is_in None (numeric_columns table_one_numeric))
     = true).
Proof.
  assert (Ht : forall l, In l (numeric_columns table_one_numeric) ->
                         label_truthy l = true)
    by (intros l [<-|[]]; reflexivity).
  split; [discriminate|]. split; [exact Ht|].
  do 5 eexists. split; [reflexivity|].
  eapply (scatter_placeholder_iff (L := Reference.library) table_one_numeric
            None None).
  - discriminate.
  - exact Ht.
  - reflexivity.
Defined.

Lemma kpis_read_first_four_witness :
  unique_labels table_abc /\
  unique_labels table_abc_note /\
  firstn 4 (filter is_number (columns table_abc))
  = firstn 4 (filter is_number (columns table_abc_note)) /\
  update_kpis (Some table_abc) = update_kpis (Some table_abc_note).
Proof.
  split; [exact unique_labels_table_abc|].
  split; [exact unique_labels_table_abc_note|]. split; [reflexivity|].
  apply (kpis_read_first_four (L := Reference.library) table_abc table_abc_note
           unique_labels_table_abc unique_labels_table_abc_note).
  reflexivity.
Defined.

Lemma table_without_numbers_shows_nothing_witness :
  numeric_columns table_text_only = [] /\
  populate_numeric_dropdowns (Some table_text_only) = ([], []) /\
  update_kpis (Some table_text_only) = Return ("-", "-", "-", "-") /\
  update_charts (Some table_text_only) (Some (LStr "city")) None
  = Return (empty_fig, empty_fig, empty_fig, empty_fig, empty_fig).
Proof.
  split; [reflexivity|].
  apply (table_without_numbers_shows_nothing (L := Reference.library)
           table_text_only (Some (LStr "city")) None).
  reflexivity.
Defined.

Lemma heatmap_of_numeric_columns_witness :
  numeric_columns table_abc <> [] /\
  exists f1 f2 f3 f4 f5,
    update_charts (Some table_abc) None None = Return (f1, f2, f3, f4, f5) /\
    exists m,
      corr (getitems table_abc (numeric_columns table_abc)) = Return m /\
      f5 = PxImshow m "Correlation Heatmap".
Proof.
  split; [discriminate|].
  do 5 eexists. split; [reflexivity|].
  eapply (heatmap_of_numeric_columns (L := Reference.library) table_abc None None).
  - discriminate.
  - reflexivity.
Defined.

Lemma selections_commute_witness :
  exists r,
    update_charts (stored_data page_loaded) (Some (LStr "b")) (Some (LStr "a"))
    = Return r /\
    step (step page_loaded (Select_primary (Some (LStr "b"))))
         (Select_secondary (Some (LStr "a")))
    = step (step page_loaded (Select_secondary (Some (LStr "a"))))
           (Select_primary (Some (LStr "b"))) /\
    charts (step (step page_loaded (Select_primary (Some (LStr "b"))))
                 (Select_secondary (Some (LStr "a")))) = r.
Proof.
  eexists. split; [reflexivity|].
  apply (selections_commute (L := Reference.library) page_loaded (Some (LStr "b"))
           (Some (LStr "a"))).
  reflexivity.
Defined.

(** The heatmap is what [DataFrame.corr()] returns in binary64: for the
    column [0, 1e200] the sum of squares overflows, and its diagonal cell is
    NaN although the column holds two distinct values. *)
Example correlation_diagonal_overflow :
  corr table_wide
  = Return {| index_len := 2;
              columns :=
                [ {| name := LStr "a"; data := Numeric [nan; 0%float] |};
                  {| name := LStr "b"; data := Numeric [0%float; 1%float] |} ] |}.
Proof. reflexivity. Qed.
